(** * codex: the Congress.gov request dispatcher and its tool catalog

    A shallow embedding of [src/codex.py].  The module is a thin adapter:
    every tool builds an endpoint path and a dictionary of query
    parameters and hands both to [make_congress_request], which adds the
    credential, performs one GET and turns every failure it handles into
    a one-key JSON document.

    Conventions of the embedding
    - a Python [str] is a [string]; each character stands for one code
      point below 256;
    - a Python [int] is a [Z];
    - a [dict] with string keys is a [gmap string _];
    - the outside world (environment, HTTP client, JSON parser) is given
      as data: the environment is a finite map, the HTTP client is a
      function from the request to what the awaited call did. *)

From Stdlib Require Import ZArith String Ascii List DecimalString.
From stdpp Require Import gmap strings list fin_maps.

Local Open Scope string_scope.
Local Open Scope Z_scope.

(** ** Python values and text *)

(** The scalars that travel in a query-parameter dictionary. *)
Inductive pyval : Type :=
| PyNone
| PyBool (b : bool)
| PyInt (z : Z)
| PyStr (s : string).

#[global] Instance pyval_eq_dec : EqDecision pyval.
Proof. solve_decision. Defined.

(** Truth value testing, as [if x:] and [if not x:] use it. *)
Definition truthy (v : pyval) : bool :=
  match v with
  | PyNone => false
  | PyBool b => b
  | PyInt z => negb (z =? 0)
  | PyStr s => negb (String.eqb s "")
  end.

(** Arguments declared [Optional[T]] arrive as [None] or as a [T]. *)
Definition opt_str (o : option string) : pyval :=
  match o with Some s => PyStr s | None => PyNone end.
Definition opt_int (o : option Z) : pyval :=
  match o with Some z => PyInt z | None => PyNone end.
Definition opt_bool (o : option bool) : pyval :=
  match o with Some b => PyBool b | None => PyNone end.

(** [str(n)] for an [int]. *)
Definition str_int (z : Z) : string := NilZero.string_of_int (Z.to_int z).

(** [str(b)] for a [bool]. *)
Definition str_bool (b : bool) : string := if b then "True" else "False".

(** [str.lower()] on code points below 256: the ASCII capitals and the
    Latin-1 capitals U+00C0..U+00DE (U+00D7 is the multiplication sign)
    move up by 32. *)
Definition lower_char (c : ascii) : ascii :=
  let n := N_of_ascii c in
  if ((65 <=? n) && (n <=? 90) ||
      (192 <=? n) && (n <=? 222) && negb (n =? 215))%N
  then ascii_of_N (n + 32) else c.

Fixpoint lower (s : string) : string :=
  match s with
  | EmptyString => EmptyString
  | String c r => String (lower_char c) (lower r)
  end.

(** [sep.join(parts)]. *)
Fixpoint join (sep : string) (parts : list string) : string :=
  match parts with
  | [] => ""
  | [p] => p
  | p :: rest => p ++ sep ++ join sep rest
  end.

(** ** The [json] module *)

(** What [json.loads] can return.  A float carries the text [json.dumps]
    writes for it, the only thing this program does with one. *)
#[warnings="-register-all"]
Inductive json : Type :=
| JNull
| JBool (b : bool)
| JInt (z : Z)
| JFloat (text : string)
| JString (s : string)
| JArray (items : list json)
| JObject (members : list (string * json)).

Definition dquote : string := String (ascii_of_N 34) "".
Definition backslash : ascii := ascii_of_N 92.

Definition hex_digit (n : N) : ascii :=
  if (n <? 10)%N then ascii_of_N (48 + n) else ascii_of_N (87 + n).

(** One character of a JSON string under [ensure_ascii=True]: the
    backslash, the quote and everything outside [' '..'~'] are escaped. *)
Definition escape_char (c : ascii) : string :=
  let n := N_of_ascii c in
  if (n =? 34)%N then String backslash dquote
  else if (n =? 92)%N then String backslash (String backslash "")
  else if (n =? 10)%N then "\n"
  else if (n =? 13)%N then "\r"
  else if (n =? 9)%N then "\t"
  else if (n =? 12)%N then "\f"
  else if (n =? 8)%N then "\b"
  else if ((32 <=? n) && (n <=? 126))%N then String c ""
  else "\u00" ++ String (hex_digit (n / 16)) (String (hex_digit (n mod 16)) "").

Fixpoint escape_body (s : string) : string :=
  match s with
  | EmptyString => ""
  | String c r => escape_char c ++ escape_body r
  end.

(** [json.encoder.py_encode_basestring_ascii]. *)
Definition encode_basestring_ascii (s : string) : string :=
  dquote ++ escape_body s ++ dquote.

(** [json.dumps] with its default separators [", "] and [": "]. *)
Fixpoint json_dumps (v : json) : string :=
  match v with
  | JNull => "null"
  | JBool b => if b then "true" else "false"
  | JInt z => str_int z
  | JFloat t => t
  | JString s => encode_basestring_ascii s
  | JArray items => "[" ++ join ", " (map json_dumps items) ++ "]"
  | JObject members =>
      "{" ++ join ", "
               (map (fun kv => match kv with
                               | (k, x) => encode_basestring_ascii k ++ ": " ++ json_dumps x
                               end) members) ++ "}"
  end.

(** ** The HTTP client *)

Definition CONGRESS_API_BASE : string := "https://api.congress.gov/v3".
Definition USER_AGENT : string := "codex/1.0".

(** The arguments of [client.get(url, headers=, params=, timeout=)];
    the timeout is in seconds. *)
Record request : Type := {
  req_url : string;
  req_headers : gmap string string;
  req_params : gmap string pyval;
  req_timeout : Z
}.

(** What [response.json()] does with the body: it returns the decoded
    value, raises [json.JSONDecodeError], or raises an exception of
    another class [cls] with [str(exc) = msg] ([UnicodeDecodeError] for
    bytes that are no valid text, [RecursionError] for nesting too deep). *)
Inductive json_result : Type :=
| Decoded (v : json)
| JSONDecodeError
| JsonRaises (cls msg : string).

(** What the program reads of an [httpx.Response]. *)
Record response : Type := {
  status_code : Z;
  text : string;
  json_body : json_result
}.

(** [response.is_success], the test of [raise_for_status]. *)
Definition is_success (r : response) : bool :=
  (200 <=? status_code r) && (status_code r <=? 299).

(** Raised objects, by what the [except] clauses can tell apart.
    [ExceptionOf cls msg] is an instance of a class derived from
    [Exception] (timeouts, transport errors, [RuntimeError]) with
    [str(exc) = msg]; [BaseExceptionOf cls msg] is an instance of a class
    derived from [BaseException] only ([asyncio.CancelledError],
    [KeyboardInterrupt], [SystemExit]). *)
Inductive pyexn : Type :=
| HTTPStatusError (r : response)
| ExceptionOf (cls msg : string)
| BaseExceptionOf (cls msg : string).


(** What [await client.get(...)] did. *)
Inductive get_result : Type :=
| Responded (r : response)
| Raised (e : pyexn).

(** The world a call runs in: the module global holding the credential,
    the HTTP client, and the text [repr(request.url)] that the client
    library gives for the URL it builds from [url] and [params]. *)
Record world : Type := {
  CONGRESS_API_KEY : option string;
  client_get : request -> get_result;
  repr_URL : string -> gmap string pyval -> string
}.

(** ** Observable behaviour of a call *)

Inductive event : Type :=
| Print (line : string)
| PrintRequest (url : string) (params : option (gmap string pyval))
    (* f"Making request to: {url} with params: {params}" *)
| Get (r : request).

Inductive outcome : Type :=
| Returned (s : string)
| Propagated (e : pyexn).

Record run : Type := { trace : list event; result : outcome }.

(** [d.update(other)]: the entries of [other] win. *)
Definition dict_update (d other : gmap string pyval) : gmap string pyval :=
  other ∪ d.

(** [if params:] for an [Optional[dict]]. *)
Definition truthy_dict (params : option (gmap string pyval)) : bool :=
  match params with
  | None => false
  | Some d => negb (bool_decide (d = ∅))
  end.

Definition error_document (error_detail : string) : string :=
  json_dumps (JObject [("error", JString error_detail)]).

(** ** Tool invocations

    The host calls a tool by name with keyword arguments, validated
    against the declared types.  [tool_call] has one constructor per
    tool, [kwargs] gives the arguments by parameter name. *)

Inductive tool_call : Type :=
| call_list_amendments (limit offset : option Z) (fromDateTime toDateTime : option string)
| call_list_amendments_by_congress (congress : Z) (limit offset : option Z) (fromDateTime toDateTime : option string)
| call_list_amendments_by_type (congress : Z) (amendmentType : string) (limit offset : option Z) (fromDateTime toDateTime : option string)
| call_get_amendment_details (congress : Z) (amendmentType : string) (amendmentNumber : Z)
| call_get_amendment_actions (congress : Z) (amendmentType : string) (amendmentNumber : Z) (limit offset : option Z)
| call_get_amendment_cosponsors (congress : Z) (amendmentType : string) (amendmentNumber : Z) (limit offset : option Z)
| call_get_amendments_to_amendment (congress : Z) (amendmentType : string) (amendmentNumber : Z) (limit offset : option Z)
| call_get_amendment_text (congress : Z) (amendmentType : string) (amendmentNumber : Z) (limit offset : option Z)
| call_list_bills (limit offset : option Z) (fromDateTime toDateTime sort : option string)
| call_list_bills_by_congress (congress : Z) (limit offset : option Z) (fromDateTime toDateTime sort : option string)
| call_list_bills_by_type (congress : Z) (billType : string) (limit offset : option Z) (fromDateTime toDateTime sort : option string)
| call_get_bill_details (congress : Z) (billType : string) (billNumber : Z)
| call_get_bill_actions (congress : Z) (billType : string) (billNumber : Z) (limit offset : option Z)
| call_get_bill_amendments (congress : Z) (billType : string) (billNumber : Z) (limit offset : option Z)
| call_get_bill_committees (congress : Z) (billType : string) (billNumber : Z) (limit offset : option Z)
| call_get_bill_cosponsors (congress : Z) (billType : string) (billNumber : Z) (limit offset : option Z)
| call_get_bill_related_bills (congress : Z) (billType : string) (billNumber : Z) (limit offset : option Z)
| call_get_bill_subjects (congress : Z) (billType : string) (billNumber : Z) (limit offset : option Z)
| call_get_bill_summaries (congress : Z) (billType : string) (billNumber : Z) (limit offset : option Z)
| call_get_bill_text (congress : Z) (billType : string) (billNumber : Z) (limit offset : option Z)
| call_get_bill_titles (congress : Z) (billType : string) (billNumber : Z) (limit offset : option Z)
| call_list_committees (limit offset : option Z) (chamber : option string)
| call_list_committees_by_chamber (chamber : string) (limit offset : option Z)
| call_get_committee_details (chamber committeeCode : string)
| call_get_committee_bills (chamber committeeCode : string) (limit offset : option Z)
| call_get_committee_members (chamber committeeCode : string) (limit offset : option Z)
| call_list_committee_reports (limit offset : option Z) (fromDateTime toDateTime : option string)
| call_list_committee_reports_by_congress (congress : Z) (limit offset : option Z) (fromDateTime toDateTime : option string) (conference : option bool)
| call_list_committee_reports_by_type (congress : Z) (reportType : string) (limit offset : option Z) (fromDateTime toDateTime : option string)
| call_get_committee_report_details (congress : Z) (reportType : string) (reportNumber : Z)
| call_list_committee_prints (limit offset : option Z) (fromDateTime toDateTime : option string)
| call_list_committee_prints_by_congress (congress : Z) (limit offset : option Z) (fromDateTime toDateTime : option string)
| call_list_committee_prints_by_chamber (congress : Z) (chamber : string) (limit offset : option Z) (fromDateTime toDateTime : option string)
| call_get_committee_print_details (congress : Z) (chamber jacketNumber : string)
| call_list_committee_meetings (limit offset : option Z) (fromDateTime toDateTime : option string)
| call_list_committee_meetings_by_congress (congress : Z) (limit offset : option Z) (fromDateTime toDateTime : option string)
| call_list_committee_meetings_by_chamber (congress : Z) (chamber : string) (limit offset : option Z) (fromDateTime toDateTime : option string)
| call_get_committee_meeting_details (congress : Z) (chamber eventId : string)
| call_list_members (limit offset : option Z) (fromDateTime toDateTime : option string) (currentMember : option bool)
| call_get_member_details (bioguideId : string)
| call_get_member_sponsored_legislation (bioguideId : string) (limit offset : option Z)
| call_get_member_cosponsored_legislation (bioguideId : string) (limit offset : option Z)
| call_list_members_by_congress (congress : Z) (limit offset : option Z)
| call_list_nominations (limit offset : option Z)
| call_list_nominations_by_congress (congress : Z) (limit offset : option Z)
| call_get_nomination_details (congress nominationNumber : Z)
| call_get_nomination_actions (congress nominationNumber : Z) (limit offset : option Z)
| call_list_treaties (limit offset : option Z)
| call_list_treaties_by_congress (congress : Z) (limit offset : option Z)
| call_get_treaty_details (congress treatyNumber : Z)
| call_get_treaty_actions (congress treatyNumber : Z) (limit offset : option Z)
| call_list_congressional_records (limit offset : option Z)
| call_list_daily_congressional_records (volumeNumber issueNumber : Z) (limit offset : option Z)
| call_list_bound_congressional_records (limit offset : option Z)
| call_list_bound_congressional_records_by_year (year : string) (limit offset : option Z)
| call_list_bound_congressional_records_by_month (year month : string) (limit offset : option Z)
| call_list_bound_congressional_records_by_day (year month day : string) (limit offset : option Z)
| call_list_congresses (limit offset : option Z)
| call_get_congress (congress : Z)
| call_get_current_congress
| call_list_summaries (limit offset : option Z) (fromDateTime toDateTime sort : option string)
| call_list_summaries_by_congress (congress : Z) (limit offset : option Z) (fromDateTime toDateTime sort : option string)
| call_list_summaries_by_bill_type (congress : Z) (billType : string) (limit offset : option Z) (fromDateTime toDateTime sort : option string)
| call_list_hearings (limit offset : option Z)
| call_list_hearings_by_congress (congress : Z) (limit offset : option Z) (chamber committee : option string)
| call_get_hearing_details (congress : Z) (chamber jacketNumber : string)
| call_list_house_communications (limit offset : option Z)
| call_list_house_communications_by_congress (congress : Z) (limit offset : option Z)
| call_get_house_communication_details (congress : Z) (communicationType : string) (communicationNumber : Z)
| call_list_senate_communications (limit offset : option Z)
| call_get_senate_communication_details (congress : Z) (communicationType : string) (communicationNumber : Z)
| call_list_senate_communications_by_congress (congress : Z) (limit offset : option Z)
| call_list_house_requirements (limit offset : option Z)
| call_get_house_requirement_details (requirementNumber : Z)
| call_get_house_requirement_matching_communications (requirementNumber : Z) (limit offset : option Z)
| call_list_crs_reports (limit offset : option Z)
| call_get_crs_report_details (reportNumber : string).

Definition tool_name (c : tool_call) : string :=
  match c with
  | call_list_amendments _ _ _ _ => "list_amendments"
  | call_list_amendments_by_congress _ _ _ _ _ => "list_amendments_by_congress"
  | call_list_amendments_by_type _ _ _ _ _ _ => "list_amendments_by_type"
  | call_get_amendment_details _ _ _ => "get_amendment_details"
  | call_get_amendment_actions _ _ _ _ _ => "get_amendment_actions"
  | call_get_amendment_cosponsors _ _ _ _ _ => "get_amendment_cosponsors"
  | call_get_amendments_to_amendment _ _ _ _ _ => "get_amendments_to_amendment"
  | call_get_amendment_text _ _ _ _ _ => "get_amendment_text"
  | call_list_bills _ _ _ _ _ => "list_bills"
  | call_list_bills_by_congress _ _ _ _ _ _ => "list_bills_by_congress"
  | call_list_bills_by_type _ _ _ _ _ _ _ => "list_bills_by_type"
  | call_get_bill_details _ _ _ => "get_bill_details"
  | call_get_bill_actions _ _ _ _ _ => "get_bill_actions"
  | call_get_bill_amendments _ _ _ _ _ => "get_bill_amendments"
  | call_get_bill_committees _ _ _ _ _ => "get_bill_committees"
  | call_get_bill_cosponsors _ _ _ _ _ => "get_bill_cosponsors"
  | call_get_bill_related_bills _ _ _ _ _ => "get_bill_related_bills"
  | call_get_bill_subjects _ _ _ _ _ => "get_bill_subjects"
  | call_get_bill_summaries _ _ _ _ _ => "get_bill_summaries"
  | call_get_bill_text _ _ _ _ _ => "get_bill_text"
  | call_get_bill_titles _ _ _ _ _ => "get_bill_titles"
  | call_list_committees _ _ _ => "list_committees"
  | call_list_committees_by_chamber _ _ _ => "list_committees_by_chamber"
  | call_get_committee_details _ _ => "get_committee_details"
  | call_get_committee_bills _ _ _ _ => "get_committee_bills"
  | call_get_committee_members _ _ _ _ => "get_committee_members"
  | call_list_committee_reports _ _ _ _ => "list_committee_reports"
  | call_list_committee_reports_by_congress _ _ _ _ _ _ => "list_committee_reports_by_congress"
  | call_list_committee_reports_by_type _ _ _ _ _ _ => "list_committee_reports_by_type"
  | call_get_committee_report_details _ _ _ => "get_committee_report_details"
  | call_list_committee_prints _ _ _ _ => "list_committee_prints"
  | call_list_committee_prints_by_congress _ _ _ _ _ => "list_committee_prints_by_congress"
  | call_list_committee_prints_by_chamber _ _ _ _ _ _ => "list_committee_prints_by_chamber"
  | call_get_committee_print_details _ _ _ => "get_committee_print_details"
  | call_list_committee_meetings _ _ _ _ => "list_committee_meetings"
  | call_list_committee_meetings_by_congress _ _ _ _ _ => "list_committee_meetings_by_congress"
  | call_list_committee_meetings_by_chamber _ _ _ _ _ _ => "list_committee_meetings_by_chamber"
  | call_get_committee_meeting_details _ _ _ => "get_committee_meeting_details"
  | call_list_members _ _ _ _ _ => "list_members"
  | call_get_member_details _ => "get_member_details"
  | call_get_member_sponsored_legislation _ _ _ => "get_member_sponsored_legislation"
  | call_get_member_cosponsored_legislation _ _ _ => "get_member_cosponsored_legislation"
  | call_list_members_by_congress _ _ _ => "list_members_by_congress"
  | call_list_nominations _ _ => "list_nominations"
  | call_list_nominations_by_congress _ _ _ => "list_nominations_by_congress"
  | call_get_nomination_details _ _ => "get_nomination_details"
  | call_get_nomination_actions _ _ _ _ => "get_nomination_actions"
  | call_list_treaties _ _ => "list_treaties"
  | call_list_treaties_by_congress _ _ _ => "list_treaties_by_congress"
  | call_get_treaty_details _ _ => "get_treaty_details"
  | call_get_treaty_actions _ _ _ _ => "get_treaty_actions"
  | call_list_congressional_records _ _ => "list_congressional_records"
  | call_list_daily_congressional_records _ _ _ _ => "list_daily_congressional_records"
  | call_list_bound_congressional_records _ _ => "list_bound_congressional_records"
  | call_list_bound_congressional_records_by_year _ _ _ => "list_bound_congressional_records_by_year"
  | call_list_bound_congressional_records_by_month _ _ _ _ => "list_bound_congressional_records_by_month"
  | call_list_bound_congressional_records_by_day _ _ _ _ _ => "list_bound_congressional_records_by_day"
  | call_list_congresses _ _ => "list_congresses"
  | call_get_congress _ => "get_congress"
  | call_get_current_congress => "get_current_congress"
  | call_list_summaries _ _ _ _ _ => "list_summaries"
  | call_list_summaries_by_congress _ _ _ _ _ _ => "list_summaries_by_congress"
  | call_list_summaries_by_bill_type _ _ _ _ _ _ _ => "list_summaries_by_bill_type"
  | call_list_hearings _ _ => "list_hearings"
  | call_list_hearings_by_congress _ _ _ _ _ => "list_hearings_by_congress"
  | call_get_hearing_details _ _ _ => "get_hearing_details"
  | call_list_house_communications _ _ => "list_house_communications"
  | call_list_house_communications_by_congress _ _ _ => "list_house_communications_by_congress"
  | call_get_house_communication_details _ _ _ => "get_house_communication_details"
  | call_list_senate_communications _ _ => "list_senate_communications"
  | call_get_senate_communication_details _ _ _ => "get_senate_communication_details"
  | call_list_senate_communications_by_congress _ _ _ => "list_senate_communications_by_congress"
  | call_list_house_requirements _ _ => "list_house_requirements"
  | call_get_house_requirement_details _ => "get_house_requirement_details"
  | call_get_house_requirement_matching_communications _ _ _ => "get_house_requirement_matching_communications"
  | call_list_crs_reports _ _ => "list_crs_reports"
  | call_get_crs_report_details _ => "get_crs_report_details"
  end.

Definition kwargs (c : tool_call) : gmap string pyval :=
  match c with
  | call_list_amendments limit offset fromDateTime toDateTime =>
      list_to_map [("limit", opt_int limit); ("offset", opt_int offset); ("fromDateTime", opt_str fromDateTime); ("toDateTime", opt_str toDateTime)]
  | call_list_amendments_by_congress congress limit offset fromDateTime toDateTime =>
      list_to_map [("congress", PyInt congress); ("limit", opt_int limit); ("offset", opt_int offset); ("fromDateTime", opt_str fromDateTime); ("toDateTime", opt_str toDateTime)]
  | call_list_amendments_by_type congress amendmentType limit offset fromDateTime toDateTime =>
      list_to_map [("congress", PyInt congress); ("amendmentType", PyStr amendmentType); ("limit", opt_int limit); ("offset", opt_int offset); ("fromDateTime", opt_str fromDateTime); ("toDateTime", opt_str toDateTime)]
  | call_get_amendment_details congress amendmentType amendmentNumber =>
      list_to_map [("congress", PyInt congress); ("amendmentType", PyStr amendmentType); ("amendmentNumber", PyInt amendmentNumber)]
  | call_get_amendment_actions congress amendmentType amendmentNumber limit offset =>
      list_to_map [("congress", PyInt congress); ("amendmentType", PyStr amendmentType); ("amendmentNumber", PyInt amendmentNumber); ("limit", opt_int limit); ("offset", opt_int offset)]
  | call_get_amendment_cosponsors congress amendmentType amendmentNumber limit offset =>
      list_to_map [("congress", PyInt congress); ("amendmentType", PyStr amendmentType); ("amendmentNumber", PyInt amendmentNumber); ("limit", opt_int limit); ("offset", opt_int offset)]
  | call_get_amendments_to_amendment congress amendmentType amendmentNumber limit offset =>
      list_to_map [("congress", PyInt congress); ("amendmentType", PyStr amendmentType); ("amendmentNumber", PyInt amendmentNumber); ("limit", opt_int limit); ("offset", opt_int offset)]
  | call_get_amendment_text congress amendmentType amendmentNumber limit offset =>
      list_to_map [("congress", PyInt congress); ("amendmentType", PyStr amendmentType); ("amendmentNumber", PyInt amendmentNumber); ("limit", opt_int limit); ("offset", opt_int offset)]
  | call_list_bills limit offset fromDateTime toDateTime sort =>
      list_to_map [("limit", opt_int limit); ("offset", opt_int offset); ("fromDateTime", opt_str fromDateTime); ("toDateTime", opt_str toDateTime); ("sort", opt_str sort)]
  | call_list_bills_by_congress congress limit offset fromDateTime toDateTime sort =>
      list_to_map [("congress", PyInt congress); ("limit", opt_int limit); ("offset", opt_int offset); ("fromDateTime", opt_str fromDateTime); ("toDateTime", opt_str toDateTime); ("sort", opt_str sort)]
  | call_list_bills_by_type congress billType limit offset fromDateTime toDateTime sort =>
      list_to_map [("congress", PyInt congress); ("billType", PyStr billType); ("limit", opt_int limit); ("offset", opt_int offset); ("fromDateTime", opt_str fromDateTime); ("toDateTime", opt_str toDateTime); ("sort", opt_str sort)]
  | call_get_bill_details congress billType billNumber =>
      list_to_map [("congress", PyInt congress); ("billType", PyStr billType); ("billNumber", PyInt billNumber)]
  | call_get_bill_actions congress billType billNumber limit offset =>
      list_to_map [("congress", PyInt congress); ("billType", PyStr billType); ("billNumber", PyInt billNumber); ("limit", opt_int limit); ("offset", opt_int offset)]
  | call_get_bill_amendments congress billType billNumber limit offset =>
      list_to_map [("congress", PyInt congress); ("billType", PyStr billType); ("billNumber", PyInt billNumber); ("limit", opt_int limit); ("offset", opt_int offset)]
  | call_get_bill_committees congress billType billNumber limit offset =>
      list_to_map [("congress", PyInt congress); ("billType", PyStr billType); ("billNumber", PyInt billNumber); ("limit", opt_int limit); ("offset", opt_int offset)]
  | call_get_bill_cosponsors congress billType billNumber limit offset =>
      list_to_map [("congress", PyInt congress); ("billType", PyStr billType); ("billNumber", PyInt billNumber); ("limit", opt_int limit); ("offset", opt_int offset)]
  | call_get_bill_related_bills congress billType billNumber limit offset =>
      list_to_map [("congress", PyInt congress); ("billType", PyStr billType); ("billNumber", PyInt billNumber); ("limit", opt_int limit); ("offset", opt_int offset)]
  | call_get_bill_subjects congress billType billNumber limit offset =>
      list_to_map [("congress", PyInt congress); ("billType", PyStr billType); ("billNumber", PyInt billNumber); ("limit", opt_int limit); ("offset", opt_int offset)]
  | call_get_bill_summaries congress billType billNumber limit offset =>
      list_to_map [("congress", PyInt congress); ("billType", PyStr billType); ("billNumber", PyInt billNumber); ("limit", opt_int limit); ("offset", opt_int offset)]
  | call_get_bill_text congress billType billNumber limit offset =>
      list_to_map [("congress", PyInt congress); ("billType", PyStr billType); ("billNumber", PyInt billNumber); ("limit", opt_int limit); ("offset", opt_int offset)]
  | call_get_bill_titles congress billType billNumber limit offset =>
      list_to_map [("congress", PyInt congress); ("billType", PyStr billType); ("billNumber", PyInt billNumber); ("limit", opt_int limit); ("offset", opt_int offset)]
  | call_list_committees limit offset chamber =>
      list_to_map [("limit", opt_int limit); ("offset", opt_int offset); ("chamber", opt_str chamber)]
  | call_list_committees_by_chamber chamber limit offset =>
      list_to_map [("chamber", PyStr chamber); ("limit", opt_int limit); ("offset", opt_int offset)]
  | call_get_committee_details chamber committeeCode =>
      list_to_map [("chamber", PyStr chamber); ("committeeCode", PyStr committeeCode)]
  | call_get_committee_bills chamber committeeCode limit offset =>
      list_to_map [("chamber", PyStr chamber); ("committeeCode", PyStr committeeCode); ("limit", opt_int limit); ("offset", opt_int offset)]
  | call_get_committee_members chamber committeeCode limit offset =>
      list_to_map [("chamber", PyStr chamber); ("committeeCode", PyStr committeeCode); ("limit", opt_int limit); ("offset", opt_int offset)]
  | call_list_committee_reports limit offset fromDateTime toDateTime =>
      list_to_map [("limit", opt_int limit); ("offset", opt_int offset); ("fromDateTime", opt_str fromDateTime); ("toDateTime", opt_str toDateTime)]
  | call_list_committee_reports_by_congress congress limit offset fromDateTime toDateTime conference =>
      list_to_map [("congress", PyInt congress); ("limit", opt_int limit); ("offset", opt_int offset); ("fromDateTime", opt_str fromDateTime); ("toDateTime", opt_str toDateTime); ("conference", opt_bool conference)]
  | call_list_committee_reports_by_type congress reportType limit offset fromDateTime toDateTime =>
      list_to_map [("congress", PyInt congress); ("reportType", PyStr reportType); ("limit", opt_int limit); ("offset", opt_int offset); ("fromDateTime", opt_str fromDateTime); ("toDateTime", opt_str toDateTime)]
  | call_get_committee_report_details congress reportType reportNumber =>
      list_to_map [("congress", PyInt congress); ("reportType", PyStr reportType); ("reportNumber", PyInt reportNumber)]
  | call_list_committee_prints limit offset fromDateTime toDateTime =>
      list_to_map [("limit", opt_int limit); ("offset", opt_int offset); ("fromDateTime", opt_str fromDateTime); ("toDateTime", opt_str toDateTime)]
  | call_list_committee_prints_by_congress congress limit offset fromDateTime toDateTime =>
      list_to_map [("congress", PyInt congress); ("limit", opt_int limit); ("offset", opt_int offset); ("fromDateTime", opt_str fromDateTime); ("toDateTime", opt_str toDateTime)]
  | call_list_committee_prints_by_chamber congress chamber limit offset fromDateTime toDateTime =>
      list_to_map [("congress", PyInt congress); ("chamber", PyStr chamber); ("limit", opt_int limit); ("offset", opt_int offset); ("fromDateTime", opt_str fromDateTime); ("toDateTime", opt_str toDateTime)]
  | call_get_committee_print_details congress chamber jacketNumber =>
      list_to_map [("congress", PyInt congress); ("chamber", PyStr chamber); ("jacketNumber", PyStr jacketNumber)]
  | call_list_committee_meetings limit offset fromDateTime toDateTime =>
      list_to_map [("limit", opt_int limit); ("offset", opt_int offset); ("fromDateTime", opt_str fromDateTime); ("toDateTime", opt_str toDateTime)]
  | call_list_committee_meetings_by_congress congress limit offset fromDateTime toDateTime =>
      list_to_map [("congress", PyInt congress); ("limit", opt_int limit); ("offset", opt_int offset); ("fromDateTime", opt_str fromDateTime); ("toDateTime", opt_str toDateTime)]
  | call_list_committee_meetings_by_chamber congress chamber limit offset fromDateTime toDateTime =>
      list_to_map [("congress", PyInt congress); ("chamber", PyStr chamber); ("limit", opt_int limit); ("offset", opt_int offset); ("fromDateTime", opt_str fromDateTime); ("toDateTime", opt_str toDateTime)]
  | call_get_committee_meeting_details congress chamber eventId =>
      list_to_map [("congress", PyInt congress); ("chamber", PyStr chamber); ("eventId", PyStr eventId)]
  | call_list_members limit offset fromDateTime toDateTime currentMember =>
      list_to_map [("limit", opt_int limit); ("offset", opt_int offset); ("fromDateTime", opt_str fromDateTime); ("toDateTime", opt_str toDateTime); ("currentMember", opt_bool currentMember)]
  | call_get_member_details bioguideId =>
      list_to_map [("bioguideId", PyStr bioguideId)]
  | call_get_member_sponsored_legislation bioguideId limit offset =>
      list_to_map [("bioguideId", PyStr bioguideId); ("limit", opt_int limit); ("offset", opt_int offset)]
  | call_get_member_cosponsored_legislation bioguideId limit offset =>
      list_to_map [("bioguideId", PyStr bioguideId); ("limit", opt_int limit); ("offset", opt_int offset)]
  | call_list_members_by_congress congress limit offset =>
      list_to_map [("congress", PyInt congress); ("limit", opt_int limit); ("offset", opt_int offset)]
  | call_list_nominations limit offset =>
      list_to_map [("limit", opt_int limit); ("offset", opt_int offset)]
  | call_list_nominations_by_congress congress limit offset =>
      list_to_map [("congress", PyInt congress); ("limit", opt_int limit); ("offset", opt_int offset)]
  | call_get_nomination_details congress nominationNumber =>
      list_to_map [("congress", PyInt congress); ("nominationNumber", PyInt nominationNumber)]
  | call_get_nomination_actions congress nominationNumber limit offset =>
      list_to_map [("congress", PyInt congress); ("nominationNumber", PyInt nominationNumber); ("limit", opt_int limit); ("offset", opt_int offset)]
  | call_list_treaties limit offset =>
      list_to_map [("limit", opt_int limit); ("offset", opt_int offset)]
  | call_list_treaties_by_congress congress limit offset =>
      list_to_map [("congress", PyInt congress); ("limit", opt_int limit); ("offset", opt_int offset)]
  | call_get_treaty_details congress treatyNumber =>
      list_to_map [("congress", PyInt congress); ("treatyNumber", PyInt treatyNumber)]
  | call_get_treaty_actions congress treatyNumber limit offset =>
      list_to_map [("congress", PyInt congress); ("treatyNumber", PyInt treatyNumber); ("limit", opt_int limit); ("offset", opt_int offset)]
  | call_list_congressional_records limit offset =>
      list_to_map [("limit", opt_int limit); ("offset", opt_int offset)]
  | call_list_daily_congressional_records volumeNumber issueNumber limit offset =>
      list_to_map [("volumeNumber", PyInt volumeNumber); ("issueNumber", PyInt issueNumber); ("limit", opt_int limit); ("offset", opt_int offset)]
  | call_list_bound_congressional_records limit offset =>
      list_to_map [("limit", opt_int limit); ("offset", opt_int offset)]
  | call_list_bound_congressional_records_by_year year limit offset =>
      list_to_map [("year", PyStr year); ("limit", opt_int limit); ("offset", opt_int offset)]
  | call_list_bound_congressional_records_by_month year month limit offset =>
      list_to_map [("year", PyStr year); ("month", PyStr month); ("limit", opt_int limit); ("offset", opt_int offset)]
  | call_list_bound_congressional_records_by_day year month day limit offset =>
      list_to_map [("year", PyStr year); ("month", PyStr month); ("day", PyStr day); ("limit", opt_int limit); ("offset", opt_int offset)]
  | call_list_congresses limit offset =>
      list_to_map [("limit", opt_int limit); ("offset", opt_int offset)]
  | call_get_congress congress =>
      list_to_map [("congress", PyInt congress)]
  | call_get_current_congress =>
      list_to_map []
  | call_list_summaries limit offset fromDateTime toDateTime sort =>
      list_to_map [("limit", opt_int limit); ("offset", opt_int offset); ("fromDateTime", opt_str fromDateTime); ("toDateTime", opt_str toDateTime); ("sort", opt_str sort)]
  | call_list_summaries_by_congress congress limit offset fromDateTime toDateTime sort =>
      list_to_map [("congress", PyInt congress); ("limit", opt_int limit); ("offset", opt_int offset); ("fromDateTime", opt_str fromDateTime); ("toDateTime", opt_str toDateTime); ("sort", opt_str sort)]
  | call_list_summaries_by_bill_type congress billType limit offset fromDateTime toDateTime sort =>
      list_to_map [("congress", PyInt congress); ("billType", PyStr billType); ("limit", opt_int limit); ("offset", opt_int offset); ("fromDateTime", opt_str fromDateTime); ("toDateTime", opt_str toDateTime); ("sort", opt_str sort)]
  | call_list_hearings limit offset =>
      list_to_map [("limit", opt_int limit); ("offset", opt_int offset)]
  | call_list_hearings_by_congress congress limit offset chamber committee =>
      list_to_map [("congress", PyInt congress); ("limit", opt_int limit); ("offset", opt_int offset); ("chamber", opt_str chamber); ("committee", opt_str committee)]
  | call_get_hearing_details congress chamber jacketNumber =>
      list_to_map [("congress", PyInt congress); ("chamber", PyStr chamber); ("jacketNumber", PyStr jacketNumber)]
  | call_list_house_communications limit offset =>
      list_to_map [("limit", opt_int limit); ("offset", opt_int offset)]
  | call_list_house_communications_by_congress congress limit offset =>
      list_to_map [("congress", PyInt congress); ("limit", opt_int limit); ("offset", opt_int offset)]
  | call_get_house_communication_details congress communicationType communicationNumber =>
      list_to_map [("congress", PyInt congress); ("communicationType", PyStr communicationType); ("communicationNumber", PyInt communicationNumber)]
  | call_list_senate_communications limit offset =>
      list_to_map [("limit", opt_int limit); ("offset", opt_int offset)]
  | call_get_senate_communication_details congress communicationType communicationNumber =>
      list_to_map [("congress", PyInt congress); ("communicationType", PyStr communicationType); ("communicationNumber", PyInt communicationNumber)]
  | call_list_senate_communications_by_congress congress limit offset =>
      list_to_map [("congress", PyInt congress); ("limit", opt_int limit); ("offset", opt_int offset)]
  | call_list_house_requirements limit offset =>
      list_to_map [("limit", opt_int limit); ("offset", opt_int offset)]
  | call_get_house_requirement_details requirementNumber =>
      list_to_map [("requirementNumber", PyInt requirementNumber)]
  | call_get_house_requirement_matching_communications requirementNumber limit offset =>
      list_to_map [("requirementNumber", PyInt requirementNumber); ("limit", opt_int limit); ("offset", opt_int offset)]
  | call_list_crs_reports limit offset =>
      list_to_map [("limit", opt_int limit); ("offset", opt_int offset)]
  | call_get_crs_report_details reportNumber =>
      list_to_map [("reportNumber", PyStr reportNumber)]
  end.

Section Dispatcher.

Variable w : world.

(** Lines 25-30: the headers, the merged query parameters and the URL
    of the request. *)
Definition build_request (endpoint : string)
    (params : option (gmap string pyval)) : request :=
  let headers : gmap string string :=
    {[ "Accept" := "application/json"; "User-Agent" := USER_AGENT ]} in
  let full_params : gmap string pyval :=
    {[ "api_key" := opt_str (CONGRESS_API_KEY w) ]} in
  let full_params :=
    if truthy_dict params then dict_update full_params (default ∅ params)
    else full_params in
  let url := CONGRESS_API_BASE ++ endpoint in
  {| req_url := url; req_headers := headers;
     req_params := full_params; req_timeout := 30 |}.

(** The body of the [try] block: the value it returns or the exception
    it raises, with the events on the way.  The [print] of line 34 is
    taken to succeed. *)
Definition try_get (params : option (gmap string pyval)) (req : request)
    : list event * (string + pyexn) :=
  let events := [PrintRequest (req_url req) params; Get req] in
  match client_get w req with
  | Raised e => (events, inr e)
  | Responded response =>
      if is_success response then (events, inl (text response))
      else (events, inr (HTTPStatusError response))
  end.

(** Makes a request to the Congress.gov API and returns the JSON
    response as a string.

    An exception that [response.json()] raises inside the first handler
    is caught there only when it is a [json.JSONDecodeError]; any other
    leaves the function, since the second handler belongs to the same
    [try] and does not cover the first.  The construction of the client
    on line 32 and the [print] calls are taken to succeed. *)
Definition make_congress_request (endpoint : string)
    (params : option (gmap string pyval)) : run :=
  if negb (truthy (opt_str (CONGRESS_API_KEY w))) then
    {| trace := [];
       result := Returned (error_document "API key is not configured.") |}
  else
    let req := build_request endpoint params in
    match try_get params req with
    | (events, inl body) => {| trace := events; result := Returned body |}
    | (events, inr (HTTPStatusError r)) =>
        let error_detail :=
          "HTTP error " ++ str_int (status_code r) ++ " while requesting "
          ++ repr_URL w (req_url req) (req_params req) ++ "." in
        match json_body r with
        | Decoded error_content =>
            let error_detail :=
              error_detail ++ " Response: " ++ json_dumps error_content in
            {| trace := (events ++
                         [Print ("Error making Congress API request: " ++ error_detail)])%list;
               result := Returned (error_document error_detail) |}
        | JSONDecodeError =>
            let error_detail := error_detail ++ " Response body: " ++ text r in
            {| trace := (events ++
                         [Print ("Error making Congress API request: " ++ error_detail)])%list;
               result := Returned (error_document error_detail) |}
        | JsonRaises cls msg =>
            {| trace := events; result := Propagated (ExceptionOf cls msg) |}
        end
    | (events, inr (ExceptionOf cls msg)) =>
        let error_detail := "An unexpected error occurred: " ++ msg in
        {| trace := (events ++
                     [Print ("Error making Congress API request: " ++ error_detail)])%list;
           result := Returned (error_document error_detail) |}
    | (events, inr (BaseExceptionOf cls msg)) =>
        {| trace := events; result := Propagated (BaseExceptionOf cls msg) |}
    end.

(** ** The tool catalog *)

(** Lists amendments across all congresses, sorted by date of latest action. *)
Definition list_amendments (limit offset : option Z) (fromDateTime toDateTime : option string) : run :=
  let params : gmap string pyval := {[ "limit" := opt_int limit; "offset" := opt_int offset ]} in
  let params := if truthy (opt_str fromDateTime) then <["fromDateTime" := opt_str fromDateTime]> params else params in
  let params := if truthy (opt_str toDateTime) then <["toDateTime" := opt_str toDateTime]> params else params in
  make_congress_request "/amendment" (Some params).

(** Lists amendments for a specific congress, sorted by date of latest action. *)
Definition list_amendments_by_congress (congress : Z) (limit offset : option Z) (fromDateTime toDateTime : option string) : run :=
  let params : gmap string pyval := {[ "limit" := opt_int limit; "offset" := opt_int offset ]} in
  let params := if truthy (opt_str fromDateTime) then <["fromDateTime" := opt_str fromDateTime]> params else params in
  let params := if truthy (opt_str toDateTime) then <["toDateTime" := opt_str toDateTime]> params else params in
  make_congress_request ("/amendment/" ++ str_int congress) (Some params).

(** Lists amendments for a specific congress and type, sorted by date of latest action. *)
Definition list_amendments_by_type (congress : Z) (amendmentType : string) (limit offset : option Z) (fromDateTime toDateTime : option string) : run :=
  let params : gmap string pyval := {[ "limit" := opt_int limit; "offset" := opt_int offset ]} in
  let params := if truthy (opt_str fromDateTime) then <["fromDateTime" := opt_str fromDateTime]> params else params in
  let params := if truthy (opt_str toDateTime) then <["toDateTime" := opt_str toDateTime]> params else params in
  make_congress_request ("/amendment/" ++ str_int congress ++ "/" ++ amendmentType) (Some params).

(** Gets detailed information for a specific amendment. *)
Definition get_amendment_details (congress : Z) (amendmentType : string) (amendmentNumber : Z) : run :=
  make_congress_request ("/amendment/" ++ str_int congress ++ "/" ++ amendmentType ++ "/" ++ str_int amendmentNumber) None.

(** Gets the list of actions for a specific amendment. *)
Definition get_amendment_actions (congress : Z) (amendmentType : string) (amendmentNumber : Z) (limit offset : option Z) : run :=
  let params : gmap string pyval := {[ "limit" := opt_int limit; "offset" := opt_int offset ]} in
  make_congress_request ("/amendment/" ++ str_int congress ++ "/" ++ amendmentType ++ "/" ++ str_int amendmentNumber ++ "/actions") (Some params).

(** Gets the list of cosponsors for a specific amendment. *)
Definition get_amendment_cosponsors (congress : Z) (amendmentType : string) (amendmentNumber : Z) (limit offset : option Z) : run :=
  let params : gmap string pyval := {[ "limit" := opt_int limit; "offset" := opt_int offset ]} in
  make_congress_request ("/amendment/" ++ str_int congress ++ "/" ++ amendmentType ++ "/" ++ str_int amendmentNumber ++ "/cosponsors") (Some params).

(** Gets the list of amendments to a specific amendment. *)
Definition get_amendments_to_amendment (congress : Z) (amendmentType : string) (amendmentNumber : Z) (limit offset : option Z) : run :=
  let params : gmap string pyval := {[ "limit" := opt_int limit; "offset" := opt_int offset ]} in
  make_congress_request ("/amendment/" ++ str_int congress ++ "/" ++ amendmentType ++ "/" ++ str_int amendmentNumber ++ "/amendments") (Some params).

(** Gets the list of text versions for a specific amendment (117th Congress onwards). *)
Definition get_amendment_text (congress : Z) (amendmentType : string) (amendmentNumber : Z) (limit offset : option Z) : run :=
  let params : gmap string pyval := {[ "limit" := opt_int limit; "offset" := opt_int offset ]} in
  make_congress_request ("/amendment/" ++ str_int congress ++ "/" ++ amendmentType ++ "/" ++ str_int amendmentNumber ++ "/text") (Some params).

(** Lists bills across all congresses, sorted by date of latest action by default. *)
Definition list_bills (limit offset : option Z) (fromDateTime toDateTime sort : option string) : run :=
  let params : gmap string pyval := {[ "limit" := opt_int limit; "offset" := opt_int offset ]} in
  let params := if truthy (opt_str fromDateTime) then <["fromDateTime" := opt_str fromDateTime]> params else params in
  let params := if truthy (opt_str toDateTime) then <["toDateTime" := opt_str toDateTime]> params else params in
  let params := if truthy (opt_str sort) then <["sort" := opt_str sort]> params else params in
  make_congress_request "/bill" (Some params).

(** Lists bills for a specific congress, sorted by date of latest action by default. *)
Definition list_bills_by_congress (congress : Z) (limit offset : option Z) (fromDateTime toDateTime sort : option string) : run :=
  let params : gmap string pyval := {[ "limit" := opt_int limit; "offset" := opt_int offset ]} in
  let params := if truthy (opt_str fromDateTime) then <["fromDateTime" := opt_str fromDateTime]> params else params in
  let params := if truthy (opt_str toDateTime) then <["toDateTime" := opt_str toDateTime]> params else params in
  let params := if truthy (opt_str sort) then <["sort" := opt_str sort]> params else params in
  make_congress_request ("/bill/" ++ str_int congress) (Some params).

(** Lists bills for a specific congress and bill type. *)
Definition list_bills_by_type (congress : Z) (billType : string) (limit offset : option Z) (fromDateTime toDateTime sort : option string) : run :=
  let params : gmap string pyval := {[ "limit" := opt_int limit; "offset" := opt_int offset ]} in
  let params := if truthy (opt_str fromDateTime) then <["fromDateTime" := opt_str fromDateTime]> params else params in
  let params := if truthy (opt_str toDateTime) then <["toDateTime" := opt_str toDateTime]> params else params in
  let params := if truthy (opt_str sort) then <["sort" := opt_str sort]> params else params in
  make_congress_request ("/bill/" ++ str_int congress ++ "/" ++ billType) (Some params).

(** Gets detailed information for a specific bill. *)
Definition get_bill_details (congress : Z) (billType : string) (billNumber : Z) : run :=
  make_congress_request ("/bill/" ++ str_int congress ++ "/" ++ billType ++ "/" ++ str_int billNumber) None.

(** Gets the list of actions for a specific bill. *)
Definition get_bill_actions (congress : Z) (billType : string) (billNumber : Z) (limit offset : option Z) : run :=
  let params : gmap string pyval := {[ "limit" := opt_int limit; "offset" := opt_int offset ]} in
  make_congress_request ("/bill/" ++ str_int congress ++ "/" ++ billType ++ "/" ++ str_int billNumber ++ "/actions") (Some params).

(** Gets the list of amendments for a specific bill. *)
Definition get_bill_amendments (congress : Z) (billType : string) (billNumber : Z) (limit offset : option Z) : run :=
  let params : gmap string pyval := {[ "limit" := opt_int limit; "offset" := opt_int offset ]} in
  make_congress_request ("/bill/" ++ str_int congress ++ "/" ++ billType ++ "/" ++ str_int billNumber ++ "/amendments") (Some params).

(** Gets the list of committees for a specific bill. *)
Definition get_bill_committees (congress : Z) (billType : string) (billNumber : Z) (limit offset : option Z) : run :=
  let params : gmap string pyval := {[ "limit" := opt_int limit; "offset" := opt_int offset ]} in
  make_congress_request ("/bill/" ++ str_int congress ++ "/" ++ billType ++ "/" ++ str_int billNumber ++ "/committees") (Some params).

(** Gets the list of cosponsors for a specific bill. *)
Definition get_bill_cosponsors (congress : Z) (billType : string) (billNumber : Z) (limit offset : option Z) : run :=
  let params : gmap string pyval := {[ "limit" := opt_int limit; "offset" := opt_int offset ]} in
  make_congress_request ("/bill/" ++ str_int congress ++ "/" ++ billType ++ "/" ++ str_int billNumber ++ "/cosponsors") (Some params).

(** Gets the list of related bills for a specific bill. *)
Definition get_bill_related_bills (congress : Z) (billType : string) (billNumber : Z) (limit offset : option Z) : run :=
  let params : gmap string pyval := {[ "limit" := opt_int limit; "offset" := opt_int offset ]} in
  make_congress_request ("/bill/" ++ str_int congress ++ "/" ++ billType ++ "/" ++ str_int billNumber ++ "/relatedbills") (Some params).

(** Gets the list of subjects for a specific bill. *)
Definition get_bill_subjects (congress : Z) (billType : string) (billNumber : Z) (limit offset : option Z) : run :=
  let params : gmap string pyval := {[ "limit" := opt_int limit; "offset" := opt_int offset ]} in
  make_congress_request ("/bill/" ++ str_int congress ++ "/" ++ billType ++ "/" ++ str_int billNumber ++ "/subjects") (Some params).

(** Gets the list of summaries for a specific bill. *)
Definition get_bill_summaries (congress : Z) (billType : string) (billNumber : Z) (limit offset : option Z) : run :=
  let params : gmap string pyval := {[ "limit" := opt_int limit; "offset" := opt_int offset ]} in
  make_congress_request ("/bill/" ++ str_int congress ++ "/" ++ billType ++ "/" ++ str_int billNumber ++ "/summaries") (Some params).

(** Gets the list of text versions for a specific bill. *)
Definition get_bill_text (congress : Z) (billType : string) (billNumber : Z) (limit offset : option Z) : run :=
  let params : gmap string pyval := {[ "limit" := opt_int limit; "offset" := opt_int offset ]} in
  make_congress_request ("/bill/" ++ str_int congress ++ "/" ++ billType ++ "/" ++ str_int billNumber ++ "/text") (Some params).

(** Gets the list of titles for a specific bill. *)
Definition get_bill_titles (congress : Z) (billType : string) (billNumber : Z) (limit offset : option Z) : run :=
  let params : gmap string pyval := {[ "limit" := opt_int limit; "offset" := opt_int offset ]} in
  make_congress_request ("/bill/" ++ str_int congress ++ "/" ++ billType ++ "/" ++ str_int billNumber ++ "/titles") (Some params).

(** Lists committees across all congresses. *)
Definition list_committees (limit offset : option Z) (chamber : option string) : run :=
  let params : gmap string pyval := {[ "limit" := opt_int limit; "offset" := opt_int offset ]} in
  let params := if truthy (opt_str chamber) then <["chamber" := opt_str chamber]> params else params in
  make_congress_request "/committee" (Some params).

(** Lists committees for a specific chamber. *)
Definition list_committees_by_chamber (chamber : string) (limit offset : option Z) : run :=
  let params : gmap string pyval := {[ "limit" := opt_int limit; "offset" := opt_int offset ]} in
  make_congress_request ("/committee/" ++ chamber) (Some params).

(** Gets detailed information for a specific committee. *)
Definition get_committee_details (chamber committeeCode : string) : run :=
  make_congress_request ("/committee/" ++ chamber ++ "/" ++ committeeCode) None.

(** Gets the list of bills for a specific committee. *)
Definition get_committee_bills (chamber committeeCode : string) (limit offset : option Z) : run :=
  let params : gmap string pyval := {[ "limit" := opt_int limit; "offset" := opt_int offset ]} in
  make_congress_request ("/committee/" ++ chamber ++ "/" ++ committeeCode ++ "/bills") (Some params).

(** Gets the list of members for a specific committee. *)
Definition get_committee_members (chamber committeeCode : string) (limit offset : option Z) : run :=
  let params : gmap string pyval := {[ "limit" := opt_int limit; "offset" := opt_int offset ]} in
  make_congress_request ("/committee/" ++ chamber ++ "/" ++ committeeCode ++ "/members") (Some params).

(** Lists committee reports across all congresses. *)
Definition list_committee_reports (limit offset : option Z) (fromDateTime toDateTime : option string) : run :=
  let params : gmap string pyval := {[ "limit" := opt_int limit; "offset" := opt_int offset ]} in
  let params := if truthy (opt_str fromDateTime) then <["fromDateTime" := opt_str fromDateTime]> params else params in
  let params := if truthy (opt_str toDateTime) then <["toDateTime" := opt_str toDateTime]> params else params in
  make_congress_request "/committee-report" (Some params).

(** Lists committee reports for a specific congress. *)
Definition list_committee_reports_by_congress (congress : Z) (limit offset : option Z) (fromDateTime toDateTime : option string) (conference : option bool) : run :=
  let params : gmap string pyval := {[ "limit" := opt_int limit; "offset" := opt_int offset ]} in
  let params := if truthy (opt_str fromDateTime) then <["fromDateTime" := opt_str fromDateTime]> params else params in
  let params := if truthy (opt_str toDateTime) then <["toDateTime" := opt_str toDateTime]> params else params in
  let params := match conference with
                | Some b => <["conference" := PyStr (lower (str_bool b))]> params
                | None => params
                end in
  make_congress_request ("/committee-report/" ++ str_int congress) (Some params).

(** Lists committee reports for a specific congress and report type. *)
Definition list_committee_reports_by_type (congress : Z) (reportType : string) (limit offset : option Z) (fromDateTime toDateTime : option string) : run :=
  let params : gmap string pyval := {[ "limit" := opt_int limit; "offset" := opt_int offset ]} in
  let params := if truthy (opt_str fromDateTime) then <["fromDateTime" := opt_str fromDateTime]> params else params in
  let params := if truthy (opt_str toDateTime) then <["toDateTime" := opt_str toDateTime]> params else params in
  make_congress_request ("/committee-report/" ++ str_int congress ++ "/" ++ reportType) (Some params).

(** Gets detailed information for a specific committee report. *)
Definition get_committee_report_details (congress : Z) (reportType : string) (reportNumber : Z) : run :=
  make_congress_request ("/committee-report/" ++ str_int congress ++ "/" ++ reportType ++ "/" ++ str_int reportNumber) None.

(** Lists committee prints across all congresses. *)
Definition list_committee_prints (limit offset : option Z) (fromDateTime toDateTime : option string) : run :=
  let params : gmap string pyval := {[ "limit" := opt_int limit; "offset" := opt_int offset ]} in
  let params := if truthy (opt_str fromDateTime) then <["fromDateTime" := opt_str fromDateTime]> params else params in
  let params := if truthy (opt_str toDateTime) then <["toDateTime" := opt_str toDateTime]> params else params in
  make_congress_request "/committee-print" (Some params).

(** Lists committee prints for a specific congress. *)
Definition list_committee_prints_by_congress (congress : Z) (limit offset : option Z) (fromDateTime toDateTime : option string) : run :=
  let params : gmap string pyval := {[ "limit" := opt_int limit; "offset" := opt_int offset ]} in
  let params := if truthy (opt_str fromDateTime) then <["fromDateTime" := opt_str fromDateTime]> params else params in
  let params := if truthy (opt_str toDateTime) then <["toDateTime" := opt_str toDateTime]> params else params in
  make_congress_request ("/committee-print/" ++ str_int congress) (Some params).

(** Lists committee prints for a specific congress and chamber. *)
Definition list_committee_prints_by_chamber (congress : Z) (chamber : string) (limit offset : option Z) (fromDateTime toDateTime : option string) : run :=
  let params : gmap string pyval := {[ "limit" := opt_int limit; "offset" := opt_int offset ]} in
  let params := if truthy (opt_str fromDateTime) then <["fromDateTime" := opt_str fromDateTime]> params else params in
  let params := if truthy (opt_str toDateTime) then <["toDateTime" := opt_str toDateTime]> params else params in
  make_congress_request ("/committee-print/" ++ str_int congress ++ "/" ++ chamber) (Some params).

(** Gets detailed information for a specific committee print. *)
Definition get_committee_print_details (congress : Z) (chamber jacketNumber : string) : run :=
  make_congress_request ("/committee-print/" ++ str_int congress ++ "/" ++ chamber ++ "/" ++ jacketNumber) None.

(** Lists committee meetings across all congresses. *)
Definition list_committee_meetings (limit offset : option Z) (fromDateTime toDateTime : option string) : run :=
  let params : gmap string pyval := {[ "limit" := opt_int limit; "offset" := opt_int offset ]} in
  let params := if truthy (opt_str fromDateTime) then <["fromDateTime" := opt_str fromDateTime]> params else params in
  let params := if truthy (opt_str toDateTime) then <["toDateTime" := opt_str toDateTime]> params else params in
  make_congress_request "/committee-meeting" (Some params).

(** Lists committee meetings for a specific congress. *)
Definition list_committee_meetings_by_congress (congress : Z) (limit offset : option Z) (fromDateTime toDateTime : option string) : run :=
  let params : gmap string pyval := {[ "limit" := opt_int limit; "offset" := opt_int offset ]} in
  let params := if truthy (opt_str fromDateTime) then <["fromDateTime" := opt_str fromDateTime]> params else params in
  let params := if truthy (opt_str toDateTime) then <["toDateTime" := opt_str toDateTime]> params else params in
  make_congress_request ("/committee-meeting/" ++ str_int congress) (Some params).

(** Lists committee meetings for a specific congress and chamber. *)
Definition list_committee_meetings_by_chamber (congress : Z) (chamber : string) (limit offset : option Z) (fromDateTime toDateTime : option string) : run :=
  let params : gmap string pyval := {[ "limit" := opt_int limit; "offset" := opt_int offset ]} in
  let params := if truthy (opt_str fromDateTime) then <["fromDateTime" := opt_str fromDateTime]> params else params in
  let params := if truthy (opt_str toDateTime) then <["toDateTime" := opt_str toDateTime]> params else params in
  make_congress_request ("/committee-meeting/" ++ str_int congress ++ "/" ++ chamber) (Some params).

(** Gets detailed information for a specific committee meeting. *)
Definition get_committee_meeting_details (congress : Z) (chamber eventId : string) : run :=
  make_congress_request ("/committee-meeting/" ++ str_int congress ++ "/" ++ chamber ++ "/" ++ eventId) None.

(** Lists members across all congresses. *)
Definition list_members (limit offset : option Z) (fromDateTime toDateTime : option string) (currentMember : option bool) : run :=
  let params : gmap string pyval := {[ "limit" := opt_int limit; "offset" := opt_int offset ]} in
  let params := if truthy (opt_str fromDateTime) then <["fromDateTime" := opt_str fromDateTime]> params else params in
  let params := if truthy (opt_str toDateTime) then <["toDateTime" := opt_str toDateTime]> params else params in
  let params := match currentMember with
                | Some b => <["currentMember" := PyStr (lower (str_bool b))]> params
                | None => params
                end in
  make_congress_request "/member" (Some params).

(** Gets detailed information for a specific member. *)
Definition get_member_details (bioguideId : string) : run :=
  make_congress_request ("/member/" ++ bioguideId) None.

(** Gets the list of sponsored legislation for a specific member. *)
Definition get_member_sponsored_legislation (bioguideId : string) (limit offset : option Z) : run :=
  let params : gmap string pyval := {[ "limit" := opt_int limit; "offset" := opt_int offset ]} in
  make_congress_request ("/member/" ++ bioguideId ++ "/sponsored-legislation") (Some params).

(** Gets the list of cosponsored legislation for a specific member. *)
Definition get_member_cosponsored_legislation (bioguideId : string) (limit offset : option Z) : run :=
  let params : gmap string pyval := {[ "limit" := opt_int limit; "offset" := opt_int offset ]} in
  make_congress_request ("/member/" ++ bioguideId ++ "/cosponsored-legislation") (Some params).

(** Lists members for a specific congress. *)
Definition list_members_by_congress (congress : Z) (limit offset : option Z) : run :=
  let params : gmap string pyval := {[ "limit" := opt_int limit; "offset" := opt_int offset ]} in
  make_congress_request ("/member/congress/" ++ str_int congress) (Some params).

(** Lists nominations across all congresses. *)
Definition list_nominations (limit offset : option Z) : run :=
  let params : gmap string pyval := {[ "limit" := opt_int limit; "offset" := opt_int offset ]} in
  make_congress_request "/nomination" (Some params).

(** Lists nominations for a specific congress. *)
Definition list_nominations_by_congress (congress : Z) (limit offset : option Z) : run :=
  let params : gmap string pyval := {[ "limit" := opt_int limit; "offset" := opt_int offset ]} in
  make_congress_request ("/nomination/" ++ str_int congress) (Some params).

(** Gets detailed information for a specific nomination. *)
Definition get_nomination_details (congress nominationNumber : Z) : run :=
  make_congress_request ("/nomination/" ++ str_int congress ++ "/" ++ str_int nominationNumber) None.

(** Gets the list of actions for a specific nomination. *)
Definition get_nomination_actions (congress nominationNumber : Z) (limit offset : option Z) : run :=
  let params : gmap string pyval := {[ "limit" := opt_int limit; "offset" := opt_int offset ]} in
  make_congress_request ("/nomination/" ++ str_int congress ++ "/" ++ str_int nominationNumber ++ "/actions") (Some params).

(** Lists treaties across all congresses. *)
Definition list_treaties (limit offset : option Z) : run :=
  let params : gmap string pyval := {[ "limit" := opt_int limit; "offset" := opt_int offset ]} in
  make_congress_request "/treaty" (Some params).

(** Lists treaties for a specific congress. *)
Definition list_treaties_by_congress (congress : Z) (limit offset : option Z) : run :=
  let params : gmap string pyval := {[ "limit" := opt_int limit; "offset" := opt_int offset ]} in
  make_congress_request ("/treaty/" ++ str_int congress) (Some params).

(** Gets detailed information for a specific treaty. *)
Definition get_treaty_details (congress treatyNumber : Z) : run :=
  make_congress_request ("/treaty/" ++ str_int congress ++ "/" ++ str_int treatyNumber) None.

(** Gets the list of actions for a specific treaty. *)
Definition get_treaty_actions (congress treatyNumber : Z) (limit offset : option Z) : run :=
  let params : gmap string pyval := {[ "limit" := opt_int limit; "offset" := opt_int offset ]} in
  make_congress_request ("/treaty/" ++ str_int congress ++ "/" ++ str_int treatyNumber ++ "/actions") (Some params).

(** Lists Congressional Record entries. *)
Definition list_congressional_records (limit offset : option Z) : run :=
  let params : gmap string pyval := {[ "limit" := opt_int limit; "offset" := opt_int offset ]} in
  make_congress_request "/congressional-record" (Some params).

(** Lists Daily Congressional Record articles for a specific volume and issue. *)
Definition list_daily_congressional_records (volumeNumber issueNumber : Z) (limit offset : option Z) : run :=
  let params : gmap string pyval := {[ "limit" := opt_int limit; "offset" := opt_int offset ]} in
  make_congress_request ("/daily-congressional-record/" ++ str_int volumeNumber ++ "/" ++ str_int issueNumber ++ "/articles") (Some params).

(** Lists Bound Congressional Record entries. *)
Definition list_bound_congressional_records (limit offset : option Z) : run :=
  let params : gmap string pyval := {[ "limit" := opt_int limit; "offset" := opt_int offset ]} in
  make_congress_request "/bound-congressional-record" (Some params).

(** Lists Bound Congressional Record entries for a specific year. *)
Definition list_bound_congressional_records_by_year (year : string) (limit offset : option Z) : run :=
  let params : gmap string pyval := {[ "limit" := opt_int limit; "offset" := opt_int offset ]} in
  make_congress_request ("/bound-congressional-record/" ++ year) (Some params).

(** Lists Bound Congressional Record entries for a specific year and month. *)
Definition list_bound_congressional_records_by_month (year month : string) (limit offset : option Z) : run :=
  let params : gmap string pyval := {[ "limit" := opt_int limit; "offset" := opt_int offset ]} in
  make_congress_request ("/bound-congressional-record/" ++ year ++ "/" ++ month) (Some params).

(** Lists Bound Congressional Record entries for a specific date. *)
Definition list_bound_congressional_records_by_day (year month day : string) (limit offset : option Z) : run :=
  let params : gmap string pyval := {[ "limit" := opt_int limit; "offset" := opt_int offset ]} in
  make_congress_request ("/bound-congressional-record/" ++ year ++ "/" ++ month ++ "/" ++ day) (Some params).

(** Lists information about congresses. *)
Definition list_congresses (limit offset : option Z) : run :=
  let params : gmap string pyval := {[ "limit" := opt_int limit; "offset" := opt_int offset ]} in
  make_congress_request "/congress" (Some params).

(** Gets information about a specific congress. *)
Definition get_congress (congress : Z) : run :=
  make_congress_request ("/congress/" ++ str_int congress) None.

(** Gets information about the current congress. *)
Definition get_current_congress : run :=
  make_congress_request "/congress/current" None.

(** Lists bill summaries across all congresses, sorted by date of latest update. *)
Definition list_summaries (limit offset : option Z) (fromDateTime toDateTime sort : option string) : run :=
  let params : gmap string pyval := {[ "limit" := opt_int limit; "offset" := opt_int offset ]} in
  let params := if truthy (opt_str fromDateTime) then <["fromDateTime" := opt_str fromDateTime]> params else params in
  let params := if truthy (opt_str toDateTime) then <["toDateTime" := opt_str toDateTime]> params else params in
  let params := if truthy (opt_str sort) then <["sort" := opt_str sort]> params else params in
  make_congress_request "/summaries" (Some params).

(** Lists bill summaries for a specific congress, sorted by date of latest update. *)
Definition list_summaries_by_congress (congress : Z) (limit offset : option Z) (fromDateTime toDateTime sort : option string) : run :=
  let params : gmap string pyval := {[ "limit" := opt_int limit; "offset" := opt_int offset ]} in
  let params := if truthy (opt_str fromDateTime) then <["fromDateTime" := opt_str fromDateTime]> params else params in
  let params := if truthy (opt_str toDateTime) then <["toDateTime" := opt_str toDateTime]> params else params in
  let params := if truthy (opt_str sort) then <["sort" := opt_str sort]> params else params in
  make_congress_request ("/summaries/" ++ str_int congress) (Some params).

(** Lists bill summaries for a specific congress and bill type. *)
Definition list_summaries_by_bill_type (congress : Z) (billType : string) (limit offset : option Z) (fromDateTime toDateTime sort : option string) : run :=
  let params : gmap string pyval := {[ "limit" := opt_int limit; "offset" := opt_int offset ]} in
  let params := if truthy (opt_str fromDateTime) then <["fromDateTime" := opt_str fromDateTime]> params else params in
  let params := if truthy (opt_str toDateTime) then <["toDateTime" := opt_str toDateTime]> params else params in
  let params := if truthy (opt_str sort) then <["sort" := opt_str sort]> params else params in
  make_congress_request ("/summaries/" ++ str_int congress ++ "/" ++ billType) (Some params).

(** Lists hearings across all congresses. *)
Definition list_hearings (limit offset : option Z) : run :=
  let params : gmap string pyval := {[ "limit" := opt_int limit; "offset" := opt_int offset ]} in
  make_congress_request "/hearing" (Some params).

(** Lists hearings for a specific congress. *)
Definition list_hearings_by_congress (congress : Z) (limit offset : option Z) (chamber committee : option string) : run :=
  let params : gmap string pyval := {[ "limit" := opt_int limit; "offset" := opt_int offset ]} in
  let params := if truthy (opt_str chamber) then <["chamber" := opt_str chamber]> params else params in
  let params := if truthy (opt_str committee) then <["committee" := opt_str committee]> params else params in
  make_congress_request ("/hearing/" ++ str_int congress) (Some params).

(** Gets detailed information for a specific hearing. *)
Definition get_hearing_details (congress : Z) (chamber jacketNumber : string) : run :=
  make_congress_request ("/hearing/" ++ str_int congress ++ "/" ++ chamber ++ "/" ++ jacketNumber) None.

(** Lists House communications across all congresses. *)
Definition list_house_communications (limit offset : option Z) : run :=
  let params : gmap string pyval := {[ "limit" := opt_int limit; "offset" := opt_int offset ]} in
  make_congress_request "/house-communication" (Some params).

(** Lists House communications for a specific congress. *)
Definition list_house_communications_by_congress (congress : Z) (limit offset : option Z) : run :=
  let params : gmap string pyval := {[ "limit" := opt_int limit; "offset" := opt_int offset ]} in
  make_congress_request ("/house-communication/" ++ str_int congress) (Some params).

(** Gets detailed information for a specific House communication. *)
Definition get_house_communication_details (congress : Z) (communicationType : string) (communicationNumber : Z) : run :=
  make_congress_request ("/house-communication/" ++ str_int congress ++ "/" ++ communicationType ++ "/" ++ str_int communicationNumber) None.

(** Lists Senate communications across all congresses. *)
Definition list_senate_communications (limit offset : option Z) : run :=
  let params : gmap string pyval := {[ "limit" := opt_int limit; "offset" := opt_int offset ]} in
  make_congress_request "/senate-communication" (Some params).

(** Gets detailed information for a specific Senate communication. *)
Definition get_senate_communication_details (congress : Z) (communicationType : string) (communicationNumber : Z) : run :=
  make_congress_request ("/senate-communication/" ++ str_int congress ++ "/" ++ communicationType ++ "/" ++ str_int communicationNumber) None.

(** Lists Senate communications for a specific congress. *)
Definition list_senate_communications_by_congress (congress : Z) (limit offset : option Z) : run :=
  let params : gmap string pyval := {[ "limit" := opt_int limit; "offset" := opt_int offset ]} in
  make_congress_request ("/senate-communication/" ++ str_int congress) (Some params).

(** Lists House requirements. *)
Definition list_house_requirements (limit offset : option Z) : run :=
  let params : gmap string pyval := {[ "limit" := opt_int limit; "offset" := opt_int offset ]} in
  make_congress_request "/house-requirement" (Some params).

(** Gets detailed information for a specific House requirement. *)
Definition get_house_requirement_details (requirementNumber : Z) : run :=
  make_congress_request ("/house-requirement/" ++ str_int requirementNumber) None.

(** Gets the list of matching communications for a specific House requirement. *)
Definition get_house_requirement_matching_communications (requirementNumber : Z) (limit offset : option Z) : run :=
  let params : gmap string pyval := {[ "limit" := opt_int limit; "offset" := opt_int offset ]} in
  make_congress_request ("/house-requirement/" ++ str_int requirementNumber ++ "/matching-communications") (Some params).

(** Lists Congressional Research Service reports. *)
Definition list_crs_reports (limit offset : option Z) : run :=
  let params : gmap string pyval := {[ "limit" := opt_int limit; "offset" := opt_int offset ]} in
  make_congress_request "/crsreport" (Some params).

(** Gets detailed information for a specific CRS report. *)
Definition get_crs_report_details (reportNumber : string) : run :=
  make_congress_request ("/crsreport/" ++ reportNumber) None.

Definition invoke (c : tool_call) : run :=
  match c with
  | call_list_amendments limit offset fromDateTime toDateTime => list_amendments limit offset fromDateTime toDateTime
  | call_list_amendments_by_congress congress limit offset fromDateTime toDateTime => list_amendments_by_congress congress limit offset fromDateTime toDateTime
  | call_list_amendments_by_type congress amendmentType limit offset fromDateTime toDateTime => list_amendments_by_type congress amendmentType limit offset fromDateTime toDateTime
  | call_get_amendment_details congress amendmentType amendmentNumber => get_amendment_details congress amendmentType amendmentNumber
  | call_get_amendment_actions congress amendmentType amendmentNumber limit offset => get_amendment_actions congress amendmentType amendmentNumber limit offset
  | call_get_amendment_cosponsors congress amendmentType amendmentNumber limit offset => get_amendment_cosponsors congress amendmentType amendmentNumber limit offset
  | call_get_amendments_to_amendment congress amendmentType amendmentNumber limit offset => get_amendments_to_amendment congress amendmentType amendmentNumber limit offset
  | call_get_amendment_text congress amendmentType amendmentNumber limit offset => get_amendment_text congress amendmentType amendmentNumber limit offset
  | call_list_bills limit offset fromDateTime toDateTime sort => list_bills limit offset fromDateTime toDateTime sort
  | call_list_bills_by_congress congress limit offset fromDateTime toDateTime sort => list_bills_by_congress congress limit offset fromDateTime toDateTime sort
  | call_list_bills_by_type congress billType limit offset fromDateTime toDateTime sort => list_bills_by_type congress billType limit offset fromDateTime toDateTime sort
  | call_get_bill_details congress billType billNumber => get_bill_details congress billType billNumber
  | call_get_bill_actions congress billType billNumber limit offset => get_bill_actions congress billType billNumber limit offset
  | call_get_bill_amendments congress billType billNumber limit offset => get_bill_amendments congress billType billNumber limit offset
  | call_get_bill_committees congress billType billNumber limit offset => get_bill_committees congress billType billNumber limit offset
  | call_get_bill_cosponsors congress billType billNumber limit offset => get_bill_cosponsors congress billType billNumber limit offset
  | call_get_bill_related_bills congress billType billNumber limit offset => get_bill_related_bills congress billType billNumber limit offset
  | call_get_bill_subjects congress billType billNumber limit offset => get_bill_subjects congress billType billNumber limit offset
  | call_get_bill_summaries congress billType billNumber limit offset => get_bill_summaries congress billType billNumber limit offset
  | call_get_bill_text congress billType billNumber limit offset => get_bill_text congress billType billNumber limit offset
  | call_get_bill_titles congress billType billNumber limit offset => get_bill_titles congress billType billNumber limit offset
  | call_list_committees limit offset chamber => list_committees limit offset chamber
  | call_list_committees_by_chamber chamber limit offset => list_committees_by_chamber chamber limit offset
  | call_get_committee_details chamber committeeCode => get_committee_details chamber committeeCode
  | call_get_committee_bills chamber committeeCode limit offset => get_committee_bills chamber committeeCode limit offset
  | call_get_committee_members chamber committeeCode limit offset => get_committee_members chamber committeeCode limit offset
  | call_list_committee_reports limit offset fromDateTime toDateTime => list_committee_reports limit offset fromDateTime toDateTime
  | call_list_committee_reports_by_congress congress limit offset fromDateTime toDateTime conference => list_committee_reports_by_congress congress limit offset fromDateTime toDateTime conference
  | call_list_committee_reports_by_type congress reportType limit offset fromDateTime toDateTime => list_committee_reports_by_type congress reportType limit offset fromDateTime toDateTime
  | call_get_committee_report_details congress reportType reportNumber => get_committee_report_details congress reportType reportNumber
  | call_list_committee_prints limit offset fromDateTime toDateTime => list_committee_prints limit offset fromDateTime toDateTime
  | call_list_committee_prints_by_congress congress limit offset fromDateTime toDateTime => list_committee_prints_by_congress congress limit offset fromDateTime toDateTime
  | call_list_committee_prints_by_chamber congress chamber limit offset fromDateTime toDateTime => list_committee_prints_by_chamber congress chamber limit offset fromDateTime toDateTime
  | call_get_committee_print_details congress chamber jacketNumber => get_committee_print_details congress chamber jacketNumber
  | call_list_committee_meetings limit offset fromDateTime toDateTime => list_committee_meetings limit offset fromDateTime toDateTime
  | call_list_committee_meetings_by_congress congress limit offset fromDateTime toDateTime => list_committee_meetings_by_congress congress limit offset fromDateTime toDateTime
  | call_list_committee_meetings_by_chamber congress chamber limit offset fromDateTime toDateTime => list_committee_meetings_by_chamber congress chamber limit offset fromDateTime toDateTime
  | call_get_committee_meeting_details congress chamber eventId => get_committee_meeting_details congress chamber eventId
  | call_list_members limit offset fromDateTime toDateTime currentMember => list_members limit offset fromDateTime toDateTime currentMember
  | call_get_member_details bioguideId => get_member_details bioguideId
  | call_get_member_sponsored_legislation bioguideId limit offset => get_member_sponsored_legislation bioguideId limit offset
  | call_get_member_cosponsored_legislation bioguideId limit offset => get_member_cosponsored_legislation bioguideId limit offset
  | call_list_members_by_congress congress limit offset => list_members_by_congress congress limit offset
  | call_list_nominations limit offset => list_nominations limit offset
  | call_list_nominations_by_congress congress limit offset => list_nominations_by_congress congress limit offset
  | call_get_nomination_details congress nominationNumber => get_nomination_details congress nominationNumber
  | call_get_nomination_actions congress nominationNumber limit offset => get_nomination_actions congress nominationNumber limit offset
  | call_list_treaties limit offset => list_treaties limit offset
  | call_list_treaties_by_congress congress limit offset => list_treaties_by_congress congress limit offset
  | call_get_treaty_details congress treatyNumber => get_treaty_details congress treatyNumber
  | call_get_treaty_actions congress treatyNumber limit offset => get_treaty_actions congress treatyNumber limit offset
  | call_list_congressional_records limit offset => list_congressional_records limit offset
  | call_list_daily_congressional_records volumeNumber issueNumber limit offset => list_daily_congressional_records volumeNumber issueNumber limit offset
  | call_list_bound_congressional_records limit offset => list_bound_congressional_records limit offset
  | call_list_bound_congressional_records_by_year year limit offset => list_bound_congressional_records_by_year year limit offset
  | call_list_bound_congressional_records_by_month year month limit offset => list_bound_congressional_records_by_month year month limit offset
  | call_list_bound_congressional_records_by_day year month day limit offset => list_bound_congressional_records_by_day year month day limit offset
  | call_list_congresses limit offset => list_congresses limit offset
  | call_get_congress congress => get_congress congress
  | call_get_current_congress => get_current_congress 
  | call_list_summaries limit offset fromDateTime toDateTime sort => list_summaries limit offset fromDateTime toDateTime sort
  | call_list_summaries_by_congress congress limit offset fromDateTime toDateTime sort => list_summaries_by_congress congress limit offset fromDateTime toDateTime sort
  | call_list_summaries_by_bill_type congress billType limit offset fromDateTime toDateTime sort => list_summaries_by_bill_type congress billType limit offset fromDateTime toDateTime sort
  | call_list_hearings limit offset => list_hearings limit offset
  | call_list_hearings_by_congress congress limit offset chamber committee => list_hearings_by_congress congress limit offset chamber committee
  | call_get_hearing_details congress chamber jacketNumber => get_hearing_details congress chamber jacketNumber
  | call_list_house_communications limit offset => list_house_communications limit offset
  | call_list_house_communications_by_congress congress limit offset => list_house_communications_by_congress congress limit offset
  | call_get_house_communication_details congress communicationType communicationNumber => get_house_communication_details congress communicationType communicationNumber
  | call_list_senate_communications limit offset => list_senate_communications limit offset
  | call_get_senate_communication_details congress communicationType communicationNumber => get_senate_communication_details congress communicationType communicationNumber
  | call_list_senate_communications_by_congress congress limit offset => list_senate_communications_by_congress congress limit offset
  | call_list_house_requirements limit offset => list_house_requirements limit offset
  | call_get_house_requirement_details requirementNumber => get_house_requirement_details requirementNumber
  | call_get_house_requirement_matching_communications requirementNumber limit offset => get_house_requirement_matching_communications requirementNumber limit offset
  | call_list_crs_reports limit offset => list_crs_reports limit offset
  | call_get_crs_report_details reportNumber => get_crs_report_details reportNumber
  end.

End Dispatcher.

(** ** Start-up *)

(** How the process ends its start-up: the module body raised, or
    [mcp.run] took over with the credential in the module global. *)
Inductive startup : Type :=
| Failed (printed : list string) (e : pyexn)
| Serving (printed : list string) (key : option string).

(** Lines 9-12, the part of the module body that can stop the import. *)
Definition load_module (environ : gmap string string)
    : list string * (pyexn + option string) :=
  let key := environ !! "CONGRESS_API_KEY" in
  if negb (truthy (opt_str key)) then
    (["Error: CONGRESS_API_KEY environment variable not set."],
     inl (ExceptionOf "RuntimeError"
            "CONGRESS_API_KEY environment variable must be set to make API requests"))
  else ([], inr key).

(** The module body followed by the [__main__] block. *)
Definition main (environ : gmap string string) : startup :=
  match load_module environ with
  | (printed, inl e) => Failed printed e
  | (printed, inr key) =>
      let printed :=
        if negb (truthy (opt_str key)) then
          (printed ++ ["Warning: Server is running without CONGRESS_API_KEY set.";
                       "         API calls will likely fail."])%list
        else printed in
      Serving printed key
  end.

(** ** Reading a run *)

(** The requests a trace sent, in order. *)
Fixpoint requests (t : list event) : list request :=
  match t with
  | [] => []
  | Get r :: rest => r :: requests rest
  | _ :: rest => requests rest
  end.

(** [sub in s]. *)
Definition contains (s sub : string) : Prop :=
  ∃ pre post, s = pre ++ sub ++ post.

(** The caller's own entry for key [k], if the caller passed one. *)
Definition supplied (params : option (gmap string pyval)) (k : string)
    : option pyval :=
  match params with
  | Some d => d !! k
  | None => None
  end.

(** The configuration-error document, character by character. *)
Definition not_configured : string :=
  "{" ++ dquote ++ "error" ++ dquote ++ ": "
      ++ dquote ++ "API key is not configured." ++ dquote ++ "}".

(** The credential is set: the module global holds a non-empty string. *)
Definition configured (w : world) : Prop :=
  truthy (opt_str (CONGRESS_API_KEY w)) = true.




(** A parameter value as it stands in a query string. *)
Definition query_value (v : pyval) : string :=
  match v with
  | PyNone => ""
  | PyBool b => lower (str_bool b)
  | PyInt z => str_int z
  | PyStr s => s
  end.

(** Worlds to run the program in: a fixed credential, a client that
    answers every request alike, and URLs shown with their query string,
    as [URL('https://host/path?key=value&...')], the parameters in the
    order the map lists them. *)
Definition demo_world (key : option string) (answer : get_result) : world :=
  {| CONGRESS_API_KEY := key;
     client_get := λ _, answer;
     repr_URL := λ url params,
       "URL('" ++ url ++ "?"
         ++ join "&" (map (λ kv, fst kv ++ "=" ++ query_value (snd kv))
                          (map_to_list params))
         ++ "')" |}.

Definition ok_response : response :=
  {| status_code := 200; text := "{}"; json_body := Decoded (JObject []) |}.


(** A 502 whose body is the Latin-1 bytes of [accès refusé]: no valid
    UTF-8, so [response.json()] raises [UnicodeDecodeError]. *)
Definition undecodable_response : response :=
  {| status_code := 502;
     text := "acc" ++ String (ascii_of_N 232) "s refus"
                   ++ String (ascii_of_N 233) "";
     json_body :=
       JsonRaises "UnicodeDecodeError"
         "'utf-8' codec can't decode byte 0xe8 in position 3: invalid continuation byte" |}.

(** The optional text filters and the optional flags of the catalog. *)
Definition filter_names : list string :=
  ["fromDateTime"; "toDateTime"; "sort"; "chamber"; "committee"].
Definition flag_names : list string := ["currentMember"; "conference"].

(** The two pagination arguments. *)
Definition page_names : list string := ["limit"; "offset"].

(** A tool is detail-type when it takes no pagination arguments. *)
Definition detail_type (c : tool_call) : bool :=
  bool_decide (kwargs c !! "limit" = None).

(** * Properties *)

(** ** Text *)

Lemma append_assoc (a b c : string) : (a ++ b) ++ c = a ++ b ++ c.
Proof.
  induction a as [|x a IH]; [done|].
  change (String x ((a ++ b) ++ c) = String x (a ++ b ++ c)). by rewrite IH.
Qed.

Lemma contains_refl s : contains s s.
Proof.
  exists "", "". change (s = s ++ ""). induction s as [|x s IH]; [done|].
  change (String x s = String x (s ++ "")). by rewrite <- IH.
Qed.

Lemma contains_prefix s sub post : contains s sub → contains (s ++ post) sub.
Proof.
  intros (a & b & ->). exists a, (b ++ post). by rewrite !append_assoc.
Qed.

Lemma contains_suffix s sub pre : contains s sub → contains (pre ++ s) sub.
Proof.
  intros (a & b & ->). exists (pre ++ a), b. by rewrite !append_assoc.
Qed.




Create HintDb text.
#[local] Hint Resolve contains_refl contains_prefix contains_suffix : text.


(** ** The dispatcher *)

Section DispatcherFacts.

Context (w : world).
Implicit Types (endpoint : string) (params : option (gmap string pyval)).

Lemma configured_key :
  configured w ↔ ∃ key, CONGRESS_API_KEY w = Some key ∧ key ≠ "".
Proof.
  unfold configured. destruct (CONGRESS_API_KEY w) as [key|]; simpl.
  - rewrite negb_true_iff, String.eqb_neq. split; [eauto|].
    by intros (? & [= <-] & ?).
  - split; [done|]. by intros (? & ? & ?).
Qed.

Lemma unconfigured_short_circuit endpoint params :
  truthy (opt_str (CONGRESS_API_KEY w)) = false →
  make_congress_request w endpoint params =
    {| trace := [];
       result := Returned (error_document "API key is not configured.") |}.
Proof. intros H. unfold make_congress_request. by rewrite H. Qed.

(** With a credential, every call sends exactly one request, the one
    [build_request] describes, whatever the client answers. *)
Lemma one_request endpoint params :
  configured w →
  requests (trace (make_congress_request w endpoint params)) =
    [build_request w endpoint params].
Proof.
  intros H. unfold make_congress_request, try_get. rewrite H. simpl.
  destruct (client_get w _) as [r|[r|cls msg|cls msg]]; simpl; try done.
  - destruct (is_success r); simpl; [done|]. by destruct (json_body r).
  - by destruct (json_body r).
Qed.

Lemma truthy_dict_spec params :
  truthy_dict params = true ↔ ∃ d, params = Some d ∧ d ≠ ∅.
Proof.
  destruct params as [d|]; simpl.
  - rewrite negb_true_iff, bool_decide_eq_false. split; [eauto|].
    by intros (? & [= <-] & ?).
  - split; [done|]. by intros (? & ? & ?).
Qed.

(** The merged parameters, key by key: the caller's entry when there is
    one, otherwise the credential under ["api_key"]. *)
Lemma full_params_lookup endpoint params k :
  req_params (build_request w endpoint params) !! k =
    match supplied params k with
    | Some v => Some v
    | None => if decide (k = "api_key")
              then Some (opt_str (CONGRESS_API_KEY w)) else None
    end.
Proof.
  unfold build_request; simpl.
  destruct (truthy_dict params) eqn:Ht.
  - apply truthy_dict_spec in Ht as (d & -> & _). simpl.
    unfold dict_update, supplied. rewrite lookup_union.
    destruct (d !! k) as [v|] eqn:Hd; simpl.
    + by destruct ({[ "api_key" := _ ]} !! k).
    + rewrite (left_id_L None _). rewrite lookup_singleton.
      by case_decide; case_decide.
  - assert (supplied params k = None) as ->.
    { destruct params as [d|]; [|done]. unfold supplied. simpl in *.
      apply negb_false_iff, bool_decide_eq_true in Ht as ->. done. }
    rewrite lookup_singleton. by case_decide; case_decide.
Qed.

(** C1, amended: with a credential set, every dispatch sends one
    request whose parameters hold the key ["api_key"].  Its value is the
    configured credential when the caller's mapping has no entry for
    ["api_key"]; a caller's entry for that key is the value sent. *)
Theorem api_key_always_sent endpoint params :
  configured w →
  ∃ req,
    requests (trace (make_congress_request w endpoint params)) = [req] ∧
    is_Some (req_params req !! "api_key") ∧
    (supplied params "api_key" = None →
       req_params req !! "api_key" = Some (opt_str (CONGRESS_API_KEY w))) ∧
    (∀ v, supplied params "api_key" = Some v →
       req_params req !! "api_key" = Some v).
Proof.
  intros Hk. exists (build_request w endpoint params).
  split; [by apply one_request|].
  rewrite full_params_lookup.
  destruct (supplied params "api_key") as [v|]; simpl.
  - split; [by eexists|]. split; [done|]. by intros ? [= <-].
  - split; [by eexists|]. done.
Qed.



(** C5: a response outside 200..299 whose body makes [response.json()]
    raise anything but [json.JSONDecodeError] gets no error document:
    after the request line and the GET the exception leaves the
    function, and no error line is printed. *)
Theorem undecodable_error_body_escapes endpoint params r cls msg :
  configured w →
  client_get w (build_request w endpoint params) = Responded r →
  is_success r = false →
  json_body r = JsonRaises cls msg →
  make_congress_request w endpoint params =
    {| trace := [PrintRequest (CONGRESS_API_BASE ++ endpoint) params;
                 Get (build_request w endpoint params)];
       result := Propagated (ExceptionOf cls msg) |}.
Proof.
  intros Hk Hget Hns Hj. unfold make_congress_request, try_get.
  by rewrite Hk, Hget, Hns, Hj.
Qed.


(** C8: with a credential [key] set,
    [get_bill_details(congress=117, billType="hr", billNumber=3076)]
    sends one GET to [https://api.congress.gov/v3/bill/117/hr/3076] whose
    only query parameter is [api_key], and on a 2xx response returns the
    response text as it is. *)
Theorem get_bill_details_scenario key :
  CONGRESS_API_KEY w = Some key → key ≠ "" →
  let req := {| req_url := "https://api.congress.gov/v3/bill/117/hr/3076";
                req_headers := {[ "Accept" := "application/json";
                                  "User-Agent" := "codex/1.0" ]};
                req_params := {[ "api_key" := PyStr key ]};
                req_timeout := 30 |} in
  requests (trace (get_bill_details w 117 "hr" 3076)) = [req] ∧
  ∀ r, client_get w req = Responded r → is_success r = true →
       get_bill_details w 117 "hr" 3076 =
         {| trace := [PrintRequest (req_url req) None; Get req];
            result := Returned (text r) |}.
Proof.
  intros Hkey Hne req.
  assert (configured w) as Hk by (apply configured_key; eauto).
  assert (build_request w "/bill/117/hr/3076" None = req) as Hreq.
  { unfold build_request. simpl. by rewrite Hkey. }
  unfold get_bill_details. change (str_int 117) with "117".
  change (str_int 3076) with "3076".
  change ("/bill/" ++ "117" ++ "/" ++ "hr" ++ "/" ++ "3076")
    with "/bill/117/hr/3076".
  split.
  - by rewrite one_request, Hreq.
  - intros r Hget Hok. unfold make_congress_request, try_get.
    rewrite Hk, Hreq, Hget, Hok. done.
Qed.

End DispatcherFacts.

(** ** The catalog *)

(** Arguments declared optional: reading them back from their value. *)
Lemma opt_int_inj a b : opt_int a = opt_int b → a = b.
Proof. by destruct a, b; intros [=]; subst. Qed.
Lemma opt_str_inj a b : opt_str a = opt_str b → a = b.
Proof. by destruct a, b; intros [=]; subst. Qed.
Lemma opt_bool_inj a b : opt_bool a = opt_bool b → a = b.
Proof. by destruct a, b; intros [=]; subst. Qed.
Lemma opt_str_blank o : opt_str o = PyStr "" → o = Some "".
Proof. by destruct o; intros [= ->]. Qed.
Lemma opt_str_none o : opt_str o = PyNone → o = None.
Proof. by destruct o. Qed.
Lemma opt_int_none o : opt_int o = PyNone → o = None.
Proof. by destruct o. Qed.
Lemma opt_bool_none o : opt_bool o = PyNone → o = None.
Proof. by destruct o. Qed.
Lemma opt_int_not_str o s : opt_int o = PyStr s → False.
Proof. by destruct o. Qed.
Lemma opt_bool_not_str o s : opt_bool o = PyStr s → False.
Proof. by destruct o. Qed.
Lemma some_eq {A} (a b : A) : Some a = Some b → a = b.
Proof. by intros [=]. Qed.

(** Case analysis on the tests a tool body makes. *)
Ltac split_conditions :=
  repeat match goal with
  | |- context [truthy ?v] => destruct (truthy v) eqn:?
  | |- context [match ?o with Some _ => _ | None => _ end] =>
      is_var o; destruct o
  end.

(** Pick the member of a literal list of names. *)
Ltac pick_name H :=
  repeat (apply elem_of_cons in H as [->|H]); [..|by apply elem_of_nil in H].

(** From an equation between two argument values to one between the
    arguments. *)
Ltac read_value H :=
  lazymatch type of H with
  | opt_int _ = opt_int _ => apply opt_int_inj in H
  | opt_str _ = opt_str _ => apply opt_str_inj in H
  | opt_bool _ = opt_bool _ => apply opt_bool_inj in H
  | opt_str _ = PyStr "" => apply opt_str_blank in H
  | opt_int _ = PyStr _ => destruct (opt_int_not_str _ _ H)
  | opt_bool _ = PyStr _ => destruct (opt_bool_not_str _ _ H)
  | PyInt _ = PyInt _ => injection H as H
  | PyStr _ = PyStr _ => injection H as H
  | _ => discriminate H
  end.

(** Read the entry for name [n] off both sides of an equation between
    two argument maps, and so for every name of the map [m]. *)
Ltac read_key Hargs n :=
  let H := fresh "Harg" in
  pose proof (f_equal (λ m : gmap string pyval, m !! n) Hargs) as H;
  cbv beta in H;
  repeat first [ rewrite lookup_insert_eq in H
               | rewrite lookup_insert_ne in H by discriminate ];
  apply some_eq in H; read_value H.

Ltac read_keys Hargs m :=
  lazymatch m with
  | <[?n := _]> ?m' => read_key Hargs n; read_keys Hargs m'
  | _ => idtac
  end.

Ltac head_of t := lazymatch t with ?f _ => head_of f | _ => t end.
Ltac unfold_heads :=
  lazymatch goal with
  | |- ?l = ?r => let h := head_of l in unfold h
  end.

Section CatalogFacts.

Context (w : world).

(** Every tool ends in one call of the dispatcher, and never passes an
    ["api_key"] entry of its own. *)
Lemma tool_dispatches (c : tool_call) :
  ∃ endpoint params,
    invoke w c = make_congress_request w endpoint params ∧
    supplied params "api_key" = None.
Proof.
  destruct c; eexists _, _; (split; [reflexivity|]); simpl.
  all: split_conditions.
  all: vm_compute; reflexivity.
Qed.

(** A text filter reaches the dispatcher only with a truthy value. *)
Lemma tool_filters (c : tool_call) k :
  k ∈ filter_names →
  ∃ endpoint params,
    invoke w c = make_congress_request w endpoint params ∧
    (supplied params k = None ∨
     ∃ v, kwargs c !! k = Some v ∧ truthy v = true ∧ supplied params k = Some v).
Proof.
  intros Hk. unfold filter_names in Hk. pick_name Hk.
  all: destruct c; eexists _, _; (split; [reflexivity|]); simpl.
  all: split_conditions.
  all: first [ left; vm_compute; reflexivity
             | right; eexists; split; [vm_compute; reflexivity|];
               split; [eassumption | vm_compute; reflexivity] ].
Qed.

(** A flag reaches the dispatcher as lower-case text, or not at all. *)
Lemma tool_flags (c : tool_call) k :
  k ∈ flag_names →
  ∃ endpoint params,
    invoke w c = make_congress_request w endpoint params ∧
    supplied params k =
      match kwargs c !! k with
      | Some (PyBool true) => Some (PyStr "true")
      | Some (PyBool false) => Some (PyStr "false")
      | _ => None
      end.
Proof.
  intros Hk. unfold flag_names in Hk. pick_name Hk.
  all: destruct c; eexists _, _; (split; [reflexivity|]); simpl.
  all: split_conditions.
  all: try match goal with b : bool |- _ => destruct b end.
  all: vm_compute; reflexivity.
Qed.

(** What a tool sends, for the keys other than the credential's. *)
Lemma tool_request (c : tool_call) endpoint params k :
  configured w →
  invoke w c = make_congress_request w endpoint params →
  k ≠ "api_key" →
  ∃ req, requests (trace (invoke w c)) = [req] ∧
         req_params req !! k = supplied params k.
Proof.
  intros Hk -> Hne. eexists. split; [by apply one_request|].
  rewrite full_params_lookup.
  destruct (supplied params k); [done|]. by case_decide.
Qed.

(** Two calls of one tool whose arguments differ only in [k], [None] in
    one and the empty string in the other: [k] is a text filter and the
    two calls run alike. *)
Lemma blank_argument (c c' : tool_call) (k : string) :
  tool_name c = tool_name c' →
  kwargs c' !! k = Some PyNone →
  kwargs c = <[k := PyStr ""]> (kwargs c') →
  k ∈ filter_names ∧ invoke w c = invoke w c'.
Proof.
  intros Hname Hk Hargs.
  destruct c; destruct c'; try discriminate Hname; clear Hname.
  all: cbn [kwargs list_to_map foldr fst snd uncurry] in *.
  all: repeat (apply lookup_insert_Some in Hk as [[<- Hk] | [_ Hk]];
               [ first [ discriminate Hk | apply opt_str_none in Hk
                       | apply opt_int_none in Hk
                       | apply opt_bool_none in Hk ] | ]).
  all: try (rewrite lookup_empty in Hk; discriminate Hk).
  all: match type of Hargs with ?m = _ => try (read_keys Hargs m) end.
  all: subst; split; [unfold filter_names; set_solver|].
  all: cbn [invoke]; unfold_heads; cbn [opt_str truthy String.eqb negb].
  all: reflexivity.
Qed.

(** C3: while the credential is unset, every dispatch and every tool
    invocation returns exactly [{"error": "API key is not configured."}]
    and its trace is empty: no request is sent. *)
Theorem unset_credential_short_circuits :
  truthy (opt_str (CONGRESS_API_KEY w)) = false →
  (∀ endpoint params,
     make_congress_request w endpoint params =
       {| trace := []; result := Returned not_configured |}) ∧
  (∀ c : tool_call,
     invoke w c = {| trace := []; result := Returned not_configured |}).
Proof.
  intros H. split.
  - intros. by apply unconfigured_short_circuit.
  - intros c. destruct c; by apply unconfigured_short_circuit.
Qed.

Lemma filter_not_credential k : k ∈ filter_names → k ≠ "api_key".
Proof. intros Hk. unfold filter_names in Hk. by pick_name Hk. Qed.

Lemma flag_not_credential k : k ∈ flag_names → k ≠ "api_key".
Proof. intros Hk. unfold flag_names in Hk. by pick_name Hk. Qed.

(** C7: when the caller leaves out one of the filters [fromDateTime],
    [toDateTime], [sort], [chamber], [committee] (its argument is the
    default [None]), the request the tool sends has no entry under that
    key.  This holds for every tool, the list-type ones among them. *)
Theorem omitted_filter_not_sent (c : tool_call) (k : string) :
  configured w →
  k ∈ filter_names →
  kwargs c !! k = Some PyNone →
  ∃ req, requests (trace (invoke w c)) = [req] ∧ req_params req !! k = None.
Proof.
  intros Hw Hk Harg.
  destruct (tool_filters c k Hk) as (ep & ps & Hinv & [Hnone|(v & Hv & Ht & _)]).
  - destruct (tool_request c ep ps k Hw Hinv (filter_not_credential k Hk))
      as (req & Hreq & Hlook).
    exists req. by rewrite Hlook.
  - rewrite Harg in Hv. by injection Hv as <-.
Qed.

(** C6: a tool given [currentMember] or [conference] sends the key with
    the text [true] for [True] and [false] for [False], and does not
    send the key when the argument is [None]. *)
Theorem flags_sent_as_lowercase_text (c : tool_call) (k : string) :
  configured w →
  k ∈ flag_names →
  ∃ req, requests (trace (invoke w c)) = [req] ∧
    (kwargs c !! k = Some (PyBool true) →
       req_params req !! k = Some (PyStr "true")) ∧
    (kwargs c !! k = Some (PyBool false) →
       req_params req !! k = Some (PyStr "false")) ∧
    (kwargs c !! k = Some PyNone → req_params req !! k = None).
Proof.
  intros Hw Hk.
  destruct (tool_flags c k Hk) as (ep & ps & Hinv & Hsup).
  destruct (tool_request c ep ps k Hw Hinv (flag_not_credential k Hk))
    as (req & Hreq & Hlook).
  exists req. split; [done|]. rewrite Hlook, Hsup.
  repeat split; by intros ->.
Qed.

(** C10: take a call whose optional argument [k] is left out ([None])
    and the same call with [k] set to the empty string.  The two run
    alike, event for event and with the same result, and no request of
    the second carries the key [k]. *)
Theorem blank_filter_same_as_omitted (c c' : tool_call) (k : string) :
  tool_name c = tool_name c' →
  kwargs c' !! k = Some PyNone →
  kwargs c = <[k := PyStr ""]> (kwargs c') →
  invoke w c = invoke w c' ∧
  ∀ req, req ∈ requests (trace (invoke w c)) → req_params req !! k = None.
Proof.
  intros Hname Hk Hargs.
  destruct (blank_argument c c' k Hname Hk Hargs) as [Hin Heq].
  split; [done|]. intros req Hreq.
  destruct (tool_filters c k Hin) as (ep & ps & Hinv & Hsup).
  destruct (truthy (opt_str (CONGRESS_API_KEY w))) eqn:Hw.
  - destruct (tool_request c ep ps k Hw Hinv (filter_not_credential k Hin))
      as (req' & Hreq' & Hlook).
    rewrite Hreq' in Hreq. apply list_elem_of_singleton in Hreq as ->.
    rewrite Hlook. destruct Hsup as [Hnone|(v & Hv & Ht & _)]; [done|].
    rewrite Hargs, lookup_insert_eq in Hv. by injection Hv as <-.
  - rewrite Hinv, unconfigured_short_circuit in Hreq by done.
    by apply elem_of_nil in Hreq.
Qed.

End CatalogFacts.

(** ** Start-up *)

(** C2, amended: without a credential in the environment (absent or
    empty) start-up is fatal.  The module body prints its error line and
    raises [RuntimeError]; the process never serves a tool call. *)
Theorem startup_requires_credential (environ : gmap string string) :
  truthy (opt_str (environ !! "CONGRESS_API_KEY")) = false →
  main environ =
    Failed ["Error: CONGRESS_API_KEY environment variable not set."]
      (ExceptionOf "RuntimeError"
         "CONGRESS_API_KEY environment variable must be set to make API requests").
Proof. intros H. unfold main, load_module. by rewrite H. Qed.

(** ** Where the code departs from a universal reading *)

(** C1 as stated fails: a caller's own ["api_key"] entry is the value
    sent, not the configured credential. *)
Lemma caller_api_key_overrides_credential :
  ¬ (∀ (w : world) (endpoint : string) (params : option (gmap string pyval))
       (key : string) (req : request),
       CONGRESS_API_KEY w = Some key → key ≠ "" →
       req ∈ requests (trace (make_congress_request w endpoint params)) →
       req_params req !! "api_key" = Some (PyStr key)).
Proof.
  intros H.
  pose (w := demo_world (Some "CONFIGURED") (Responded ok_response)).
  pose (params := Some ({[ "api_key" := PyStr "SPOOFED" ]} : gmap string pyval)).
  specialize (H w "/bill" params "CONFIGURED" (build_request w "/bill" params)
                eq_refl).
  assert (req_params (build_request w "/bill" params) !! "api_key"
          = Some (PyStr "SPOOFED")) as Hsent by (vm_compute; reflexivity).
  rewrite H in Hsent; [discriminate Hsent | discriminate |].
  rewrite one_request by reflexivity. apply list_elem_of_here.
Qed.

(** C2 as stated fails: with an empty environment the process does not
    reach the point where it would serve calls. *)
Lemma startup_without_credential_is_fatal :
  ¬ (∀ environ : gmap string string,
       environ !! "CONGRESS_API_KEY" = None →
       ∃ printed key,
         main environ = Serving printed key ∧
         "Warning: Server is running without CONGRESS_API_KEY set." ∈ printed ∧
         ∀ (w : world) (c : tool_call),
           CONGRESS_API_KEY w = key →
           result (invoke w c) = Returned not_configured).
Proof.
  intros H. destruct (H ∅ (lookup_empty _)) as (printed & key & Hmain & _).
  discriminate Hmain.
Qed.


(** ** The theorems at concrete inputs *)

Lemma api_key_always_sent_witness :
  configured (demo_world (Some "CONFIGURED") (Responded ok_response)) ∧
  ∃ req,
    requests (trace (make_congress_request
                       (demo_world (Some "CONFIGURED") (Responded ok_response))
                       "/bill" None)) = [req] ∧
    is_Some (req_params req !! "api_key") ∧
    (supplied None "api_key" = None →
       req_params req !! "api_key" = Some (PyStr "CONFIGURED")) ∧
    (∀ v, supplied None "api_key" = Some v →
       req_params req !! "api_key" = Some v).
Proof.
  split; [reflexivity|].
  apply (api_key_always_sent
           (demo_world (Some "CONFIGURED") (Responded ok_response)) "/bill" None).
  reflexivity.
Defined.


Lemma undecodable_error_body_escapes_witness :
  result (make_congress_request
            (demo_world (Some "CONFIGURED") (Responded undecodable_response))
            "/bill/117/hr/3076" None) =
  Propagated
    (ExceptionOf "UnicodeDecodeError"
       "'utf-8' codec can't decode byte 0xe8 in position 3: invalid continuation byte").
Proof.
  rewrite (undecodable_error_body_escapes
             (demo_world (Some "CONFIGURED") (Responded undecodable_response))
             "/bill/117/hr/3076" None undecodable_response
             "UnicodeDecodeError"
             "'utf-8' codec can't decode byte 0xe8 in position 3: invalid continuation byte");
    reflexivity.
Defined.

Lemma get_bill_details_scenario_witness :
  get_bill_details (demo_world (Some "CONFIGURED") (Responded ok_response))
    117 "hr" 3076 =
  {| trace :=
       [PrintRequest "https://api.congress.gov/v3/bill/117/hr/3076" None;
        Get {| req_url := "https://api.congress.gov/v3/bill/117/hr/3076";
               req_headers := {[ "Accept" := "application/json";
                                 "User-Agent" := "codex/1.0" ]};
               req_params := {[ "api_key" := PyStr "CONFIGURED" ]};
               req_timeout := 30 |}];
     result := Returned "{}" |}.
Proof.
  destruct (get_bill_details_scenario
              (demo_world (Some "CONFIGURED") (Responded ok_response))
              "CONFIGURED") as [_ H]; [reflexivity | discriminate |].
  apply (H ok_response); reflexivity.
Defined.

Lemma unset_credential_short_circuits_witness :
  invoke (demo_world None (Responded ok_response))
    (call_get_bill_details 117 "hr" 3076) =
  {| trace := []; result := Returned not_configured |}.
Proof.
  apply (unset_credential_short_circuits
           (demo_world None (Responded ok_response)) eq_refl).
Defined.

Lemma omitted_filter_not_sent_witness :
  ∃ req,
    requests (trace (invoke
                       (demo_world (Some "CONFIGURED") (Responded ok_response))
                       (call_list_bills (Some 50) (Some 0) None None None)))
      = [req] ∧
    req_params req !! "sort" = None.
Proof.
  apply (omitted_filter_not_sent
           (demo_world (Some "CONFIGURED") (Responded ok_response))
           (call_list_bills (Some 50) (Some 0) None None None) "sort").
  - reflexivity.
  - unfold filter_names. do 2 apply list_elem_of_further. apply list_elem_of_here.
  - vm_compute. reflexivity.
Defined.

Lemma flags_sent_as_lowercase_text_witness :
  ∃ req,
    requests (trace (invoke
                       (demo_world (Some "CONFIGURED") (Responded ok_response))
                       (call_list_members (Some 100) (Some 0) None None
                          (Some true))))
      = [req] ∧
    req_params req !! "currentMember" = Some (PyStr "true").
Proof.
  destruct (flags_sent_as_lowercase_text
              (demo_world (Some "CONFIGURED") (Responded ok_response))
              (call_list_members (Some 100) (Some 0) None None (Some true))
              "currentMember")
    as (req & Hreq & Htrue & _).
  - reflexivity.
  - unfold flag_names. apply list_elem_of_here.
  - exists req. split; [exact Hreq|]. apply Htrue. vm_compute. reflexivity.
Defined.

Lemma blank_filter_same_as_omitted_witness :
  invoke (demo_world (Some "CONFIGURED") (Responded ok_response))
    (call_list_committees (Some 100) (Some 0) (Some "")) =
  invoke (demo_world (Some "CONFIGURED") (Responded ok_response))
    (call_list_committees (Some 100) (Some 0) None).
Proof.
  apply (blank_filter_same_as_omitted
           (demo_world (Some "CONFIGURED") (Responded ok_response))
           (call_list_committees (Some 100) (Some 0) (Some ""))
           (call_list_committees (Some 100) (Some 0) None) "chamber").
  - reflexivity.
  - vm_compute. reflexivity.
  - vm_compute. reflexivity.
Defined.

Lemma startup_requires_credential_witness :
  main ∅ =
    Failed ["Error: CONGRESS_API_KEY environment variable not set."]
      (ExceptionOf "RuntimeError"
         "CONGRESS_API_KEY environment variable must be set to make API requests").
Proof. apply (startup_requires_credential ∅). vm_compute. reflexivity. Defined.

(** * Further properties of the dispatcher and the catalog *)

Section Behaviour.

Context (w : world).
Implicit Types (endpoint : string) (params : option (gmap string pyval)).

(** The merged parameters are the caller's entries and the credential:
    the key set is the caller's plus ["api_key"], every other key keeps
    the caller's value, and an empty mapping merges like no mapping. *)
Theorem merged_parameters endpoint params :
  dom (req_params (build_request w endpoint params)) =
    {[ "api_key" ]} ∪ dom (default ∅ params) ∧
  (∀ k, k ≠ "api_key" →
        req_params (build_request w endpoint params) !! k = supplied params k) ∧
  build_request w endpoint (Some ∅) = build_request w endpoint None.
Proof.
  split; [|split].
  - apply set_eq. intros k.
    rewrite elem_of_union, elem_of_singleton, !elem_of_dom, full_params_lookup.
    destruct params as [d|]; simpl.
    + destruct (d !! k) as [v|] eqn:Hd.
      * split; [right|]; by eexists.
      * case_decide; subst.
        -- split; [by left | by eexists].
        -- split; [by intros [] | by intros [|[]]].
    + rewrite lookup_empty. case_decide; subst.
      * split; [by left | by eexists].
      * split; [by intros [] | by intros [|[]]].
  - intros k Hk. rewrite full_params_lookup.
    destruct (supplied params k); [done|]. by case_decide.
  - reflexivity.
Qed.

(** The only request line a call prints shows the parameters it was
    called with. *)
Lemma printed_request_line endpoint params url shown :
  PrintRequest url shown ∈ trace (make_congress_request w endpoint params) →
  url = CONGRESS_API_BASE ++ endpoint ∧ shown = params.
Proof.
  unfold make_congress_request, try_get.
  destruct (negb _); simpl; [by intros ?%elem_of_nil|].
  destruct (client_get w _) as [r|[r|cls msg|cls msg]]; simpl;
    try destruct (is_success r); simpl;
    try destruct (json_body r); simpl.
  all: intros Hin.
  all: repeat (apply elem_of_cons in Hin as [Hin|Hin];
               [first [discriminate Hin | by injection Hin as -> ->]|]).
  all: by apply elem_of_nil in Hin.
Qed.

End Behaviour.

Section Catalog.

Context (w : world).

(** Every endpoint a tool names starts with a slash. *)
Lemma tool_endpoints (c : tool_call) :
  ∃ path params,
    (∀ w', invoke w' c = make_congress_request w' (String "/" path) params) ∧
    supplied params "api_key" = None.
Proof.
  destruct c; eexists _, _; (split; [intros w'; reflexivity|]); simpl.
  all: split_conditions.
  all: vm_compute; reflexivity.
Qed.

(** The request of a tool call, with a credential [key] set. *)
Lemma tool_request_shape (c : tool_call) (key : string) :
  CONGRESS_API_KEY w = Some key → key ≠ "" →
  ∃ req path,
    requests (trace (invoke w c)) = [req] ∧
    req_url req = "https://api.congress.gov/v3/" ++ path ∧
    req_params req !! "api_key" = Some (PyStr key) ∧
    req_headers req = {[ "Accept" := "application/json";
                         "User-Agent" := "codex/1.0" ]} ∧
    req_timeout req = 30.
Proof.
  intros Hkey Hne.
  assert (configured w) as Hw by (apply configured_key; eauto).
  destruct (tool_endpoints c) as (path & ps & Hinv & Hsup).
  exists (build_request w (String "/" path) ps), path.
  rewrite Hinv. split; [by apply one_request|].
  split; [reflexivity|].
  rewrite full_params_lookup, Hsup, Hkey. done.
Qed.

(** No tool call sends more than one request, and a request it sends
    goes to a URL under [https://api.congress.gov/v3/], with the
    configured credential [key] under ["api_key"], the two fixed headers
    and a 30-second timeout. *)
Theorem tool_requests_are_authenticated (c : tool_call) (key : string) :
  CONGRESS_API_KEY w = Some key → key ≠ "" →
  (length (requests (trace (invoke w c))) ≤ 1)%nat ∧
  ∀ req, req ∈ requests (trace (invoke w c)) →
    ∃ path,
      req_url req = "https://api.congress.gov/v3/" ++ path ∧
      req_params req !! "api_key" = Some (PyStr key) ∧
      req_headers req = {[ "Accept" := "application/json";
                           "User-Agent" := "codex/1.0" ]} ∧
      req_timeout req = 30.
Proof.
  intros Hkey Hne.
  destruct (tool_request_shape c key Hkey Hne) as (req0 & path & -> & H).
  split; [done|].
  intros req ->%list_elem_of_singleton. by exists path.
Qed.

(** What a tool passes on under the pagination keys. *)
Lemma tool_pagination (c : tool_call) k :
  k ∈ page_names →
  ∃ endpoint params,
    invoke w c = make_congress_request w endpoint params ∧
    supplied params k = kwargs c !! k.
Proof.
  intros Hk. unfold page_names in Hk. pick_name Hk.
  all: destruct c; eexists _, _; (split; [reflexivity|]); simpl.
  all: split_conditions.
  all: vm_compute; reflexivity.
Qed.

(** [limit] and [offset] pass through as they are: the request holds
    under each of the two keys exactly what the call binds to it, the
    value [None] and the number 0 included, and holds neither key for a
    tool that takes no pagination. *)
Theorem pagination_passes_through (c : tool_call) (k : string) :
  configured w →
  k ∈ page_names →
  ∃ req, requests (trace (invoke w c)) = [req] ∧
         req_params req !! k = kwargs c !! k.
Proof.
  intros Hw Hk.
  destruct (tool_pagination c k Hk) as (ep & ps & Hinv & Hsup).
  assert (k ≠ "api_key") as Hne
    by (unfold page_names in Hk; by pick_name Hk).
  destruct (tool_request w c ep ps k Hw Hinv Hne) as (req & Hreq & Hlook).
  exists req. by rewrite Hlook, Hsup.
Qed.

(** Where a tool puts a filter it was given. *)
Lemma tool_filter_given (c : tool_call) k s :
  k ∈ filter_names →
  kwargs c !! k = Some (PyStr s) → s ≠ "" →
  ∃ endpoint params,
    invoke w c = make_congress_request w endpoint params ∧
    (supplied params k = Some (PyStr s) ∨
     k = "chamber" ∧ supplied params k = None ∧ contains endpoint s).
Proof.
  intros Hk Harg Hs. unfold filter_names in Hk. pick_name Hk.
  all: destruct c; cbn [kwargs list_to_map foldr fst snd uncurry] in Harg.
  all: repeat first [ rewrite lookup_insert_ne in Harg by discriminate
                    | rewrite lookup_insert_eq in Harg ].
  all: try (rewrite lookup_empty in Harg; discriminate Harg).
  all: apply some_eq in Harg.
  all: try match type of Harg with
           | opt_str ?o = _ => destruct o as [?|]; [|discriminate Harg]
           end.
  all: try discriminate Harg.
  all: injection Harg as ->.
  all: eexists _, _; (split; [reflexivity|]).
  all: cbn [opt_str truthy].
  all: assert (negb (String.eqb s "") = true) as Hgiven
         by (by rewrite negb_true_iff, String.eqb_neq).
  all: rewrite ?Hgiven.
  all: split_conditions.
  all: first [ left; vm_compute; reflexivity
             | right; split; [reflexivity|]; split; [vm_compute; reflexivity|];
               auto 12 with text ].
Qed.

(** A tool neither drops nor changes a filter given a non-empty text:
    a request the call sends carries it as the query parameter of that
    name or, where the tool takes [chamber] as a path argument, inside
    the URL. *)
Theorem given_filter_is_in_request (c : tool_call) (k s : string) :
  k ∈ filter_names →
  kwargs c !! k = Some (PyStr s) → s ≠ "" →
  ∀ req, req ∈ requests (trace (invoke w c)) →
    req_params req !! k = Some (PyStr s) ∨
    k = "chamber" ∧ req_params req !! k = None ∧ contains (req_url req) s.
Proof.
  intros Hk Harg Hs req Hreq.
  destruct (tool_filter_given c k s Hk Harg Hs) as (ep & ps & Hinv & Hsup).
  destruct (truthy (opt_str (CONGRESS_API_KEY w))) eqn:Hw.
  2:{ rewrite Hinv, unconfigured_short_circuit in Hreq by done.
      by apply elem_of_nil in Hreq. }
  rewrite Hinv, one_request in Hreq by done.
  apply list_elem_of_singleton in Hreq as ->.
  rewrite full_params_lookup.
  destruct Hsup as [->|(-> & -> & Hin)]; [by left|right].
  split; [done|]. split; [by case_decide|].
  simpl. by apply contains_suffix.
Qed.

(** A detail-type tool sends the credential and nothing else. *)
Theorem detail_tool_sends_only_credential (c : tool_call) (key : string) :
  CONGRESS_API_KEY w = Some key → key ≠ "" →
  detail_type c = true →
  ∃ req, requests (trace (invoke w c)) = [req] ∧
         req_params req = {[ "api_key" := PyStr key ]}.
Proof.
  intros Hkey Hne Hd.
  assert (configured w) as Hw by (apply configured_key; eauto).
  assert (∃ endpoint, invoke w c = make_congress_request w endpoint None)
    as [ep ->].
  { destruct c; first [ discriminate Hd | by eexists ]. }
  eexists. split; [by apply one_request|].
  unfold build_request. simpl. by rewrite Hkey.
Qed.

(** The request line a tool prints shows the tool's own parameters,
    which never hold the credential. *)
Theorem printed_parameters_omit_credential (c : tool_call) url params :
  PrintRequest url params ∈ trace (invoke w c) →
  supplied params "api_key" = None.
Proof.
  destruct (tool_dispatches w c) as (ep & ps & -> & Hsup).
  intros Hin.
  by destruct (printed_request_line w ep ps url params Hin) as [_ ->].
Qed.

End Catalog.

(** ** Start-up and serving *)



(** ** The further theorems at concrete inputs *)

Lemma merged_parameters_witness :
  req_params (build_request
                (demo_world (Some "CONFIGURED") (Responded ok_response))
                "/bill" (Some {[ "limit" := PyInt 50 ]})) !! "limit"
  = Some (PyInt 50).
Proof.
  destruct (merged_parameters
              (demo_world (Some "CONFIGURED") (Responded ok_response))
              "/bill" (Some {[ "limit" := PyInt 50 ]})) as (_ & H & _).
  rewrite H; [vm_compute; reflexivity | discriminate].
Defined.

Lemma tool_requests_are_authenticated_witness :
  ∃ path,
    req_url (build_request
               (demo_world (Some "CONFIGURED") (Responded ok_response))
               "/member/L000174" None)
      = "https://api.congress.gov/v3/" ++ path ∧
    req_params (build_request
                  (demo_world (Some "CONFIGURED") (Responded ok_response))
                  "/member/L000174" None) !! "api_key"
      = Some (PyStr "CONFIGURED") ∧
    req_headers (build_request
                   (demo_world (Some "CONFIGURED") (Responded ok_response))
                   "/member/L000174" None)
      = {[ "Accept" := "application/json"; "User-Agent" := "codex/1.0" ]} ∧
    req_timeout (build_request
                   (demo_world (Some "CONFIGURED") (Responded ok_response))
                   "/member/L000174" None) = 30.
Proof.
  destruct (tool_requests_are_authenticated
              (demo_world (Some "CONFIGURED") (Responded ok_response))
              (call_get_member_details "L000174") "CONFIGURED")
    as [_ H]; [reflexivity | discriminate |].
  apply H. apply list_elem_of_here.
Defined.

Lemma pagination_passes_through_witness :
  ∃ req,
    requests (trace (invoke
                       (demo_world (Some "CONFIGURED") (Responded ok_response))
                       (call_list_treaties None (Some 0)))) = [req] ∧
    req_params req !! "limit" =
      kwargs (call_list_treaties None (Some 0)) !! "limit".
Proof.
  apply (pagination_passes_through
           (demo_world (Some "CONFIGURED") (Responded ok_response))
           (call_list_treaties None (Some 0)) "limit").
  - reflexivity.
  - unfold page_names. apply list_elem_of_here.
Defined.

Lemma given_filter_is_in_request_witness :
  req_params (build_request
                (demo_world (Some "CONFIGURED") (Responded ok_response))
                "/committee/house"
                (Some {[ "limit" := PyInt 100; "offset" := PyInt 0 ]}))
    !! "chamber" = Some (PyStr "house") ∨
  "chamber" = "chamber" ∧
  req_params (build_request
                (demo_world (Some "CONFIGURED") (Responded ok_response))
                "/committee/house"
                (Some {[ "limit" := PyInt 100; "offset" := PyInt 0 ]}))
    !! "chamber" = None ∧
  contains
    (req_url (build_request
                (demo_world (Some "CONFIGURED") (Responded ok_response))
                "/committee/house"
                (Some {[ "limit" := PyInt 100; "offset" := PyInt 0 ]})))
    "house".
Proof.
  apply (given_filter_is_in_request
           (demo_world (Some "CONFIGURED") (Responded ok_response))
           (call_list_committees_by_chamber "house" (Some 100) (Some 0))
           "chamber" "house").
  - unfold filter_names. do 3 apply list_elem_of_further. apply list_elem_of_here.
  - vm_compute. reflexivity.
  - discriminate.
  - apply list_elem_of_here.
Defined.

Lemma detail_tool_sends_only_credential_witness :
  ∃ req,
    requests (trace (invoke
                       (demo_world (Some "CONFIGURED") (Responded ok_response))
                       (call_get_treaty_details 117 3))) = [req] ∧
    req_params req = {[ "api_key" := PyStr "CONFIGURED" ]}.
Proof.
  apply (detail_tool_sends_only_credential
           (demo_world (Some "CONFIGURED") (Responded ok_response))
           (call_get_treaty_details 117 3) "CONFIGURED").
  - reflexivity.
  - discriminate.
  - vm_compute. reflexivity.
Defined.

Lemma printed_parameters_omit_credential_witness :
  supplied (Some {[ "limit" := PyInt 100; "offset" := PyInt 0 ]}) "api_key"
  = None.
Proof.
  apply (printed_parameters_omit_credential
           (demo_world (Some "CONFIGURED") (Responded ok_response))
           (call_list_congresses (Some 100) (Some 0))
           "https://api.congress.gov/v3/congress").
  apply list_elem_of_here.
Defined.



